(** * FPL price bot: a shallow embedding of the pipeline and its properties

    The repository holds four Python scripts that fetch the Fantasy Premier
    League player table, compare it with yesterday's prices, rank players by
    transfer activity and post formatted text to a Telegram chat:

    - [main.py]                   the always-on bot (command handler and timer);
    - [send_update.py]            the one-shot price-change script;
    - [send_price_predictions.py] the one-shot price-prediction script;
    - [send_transfer_trends.py]   the one-shot transfer-trend script.

    Each script is embedded in a module of its own, named after the file.
    Python [int] is [Z]; a Python [float] is the rational number it denotes
    (module [Float]); a pandas DataFrame is the list of its rows, a row being
    a record with one field per column; a cell that pandas holds as NaN is
    [None].  The frame built from an empty array has no columns, and a
    function that selects a column of it raises [KeyError]. *)

From Stdlib Require Import ZArith QArith Qminmax List String Ascii Bool Lia.
From Stdlib Require Import Sorted Permutation DecimalString.
Import ListNotations.

Local Open Scope string_scope.
Local Open Scope Z_scope.

(** ** Text helpers: the pieces of Python's [str] the scripts use *)

Module Text.

(** [str(n)] for a Python int. *)
Definition str (n : Z) : string := NilZero.string_of_int (Z.to_int n).

Fixpoint repeat_char (c : ascii) (k : nat) : string :=
  match k with
  | O => EmptyString
  | S k' => String c (repeat_char c k')
  end.

(** [len(s)]: Python counts characters, the model holds UTF-8 bytes; a
    byte of the form 10xxxxxx continues a character and is not counted. *)
Fixpoint len (s : string) : nat :=
  match s with
  | EmptyString => O
  | String c rest =>
      let b := nat_of_ascii c in
      if (128 <=? b)%nat && (b <? 192)%nat then len rest else S (len rest)
  end.

(** The format spec [:<w]: left-aligned in a field of [w] characters; a
    longer text is kept whole. *)
Definition ljust (w : nat) (s : string) : string :=
  s ++ repeat_char " "%char (w - len s).

(** [sep.join(parts)]. *)
Fixpoint join (sep : string) (parts : list string) : string :=
  match parts with
  | [] => EmptyString
  | [p] => p
  | p :: rest => p ++ sep ++ join sep rest
  end.

(** [needle in hay]. *)
Fixpoint contains (needle hay : string) : bool :=
  if prefix needle hay then true
  else match hay with
       | EmptyString => false
       | String _ rest => contains needle rest
       end.

Definition newline : string := String (ascii_of_nat 10) EmptyString.

Definition is_digit (c : ascii) : bool :=
  match uint_of_char c (Some Decimal.Nil) with
  | Some _ => true
  | None => false
  end.

Fixpoint all_digits (s : string) : bool :=
  match s with
  | EmptyString => true
  | String c rest => is_digit c && all_digits rest
  end.

(** A text made of decimal digits only, after an optional minus sign. *)
Definition plain_number (s : string) : bool :=
  match s with
  | EmptyString => false
  | String c rest =>
      if Ascii.eqb c "-" then all_digits rest else all_digits s
  end.

(** [s * k]. *)
Fixpoint repeat_string (s : string) (k : nat) : string :=
  match k with
  | O => EmptyString
  | S k' => s ++ repeat_string s k'
  end.

End Text.

(** ** Rounding *)

(** The integer nearest to [a / b] for [0 < b], a tie going to the even
    neighbour. *)
Definition round_half_even (a b : Z) : Z :=
  let q := a / b in
  let r := a mod b in
  if 2 * r <? b then q
  else if b <? 2 * r then q + 1
  else if Z.even q then q else q + 1.

(** ** Python floats

    A finite binary64 value is modelled by the rational it denotes.  Every
    operation rounds its exact result to 53 significant bits, ties to even;
    the exponent is not bounded, so the model agrees with IEEE 754 binary64
    wherever no overflow or underflow occurs. *)

Module Float.

Definition precision : Z := 53.

(** [scaled_le k a b] decides [b * 2^k <= a] for any integer [k]. *)
Definition scaled_le (k a b : Z) : bool :=
  b * 2 ^ Z.max 0 k <=? a * 2 ^ Z.max 0 (- k).

(** [floor (log2 (a / b))] for [0 < a] and [0 < b]. *)
Definition ilog2_ratio (a b : Z) : Z :=
  let k := Z.log2 a - Z.log2 b in
  if scaled_le k a b then k else k - 1.

(** The nearest 53-bit value to [a / b], as numerator and denominator,
    for [0 < a] and [0 < b]. *)
Definition round_ratio (a b : Z) : Z * Z :=
  let e := ilog2_ratio a b - (precision - 1) in
  let up := 2 ^ Z.max 0 e in
  let down := 2 ^ Z.max 0 (- e) in
  (round_half_even (a * down) (b * up) * up, down).

(** Rounding of an arbitrary rational. *)
Definition round (x : Q) : Q :=
  match Qnum x with
  | Z0 => 0%Q
  | Zpos p =>
      let '(n, d) := round_ratio (Zpos p) (Zpos (Qden x)) in
      Qmake n (Z.to_pos d)
  | Zneg p =>
      let '(n, d) := round_ratio (Zpos p) (Zpos (Qden x)) in
      Qmake (- n) (Z.to_pos d)
  end.

(** [float(n)] *)
Definition of_int (n : Z) : Q := round (inject_Z n).

(** A float literal such as [0.1], given as the decimal fraction written
    in the source. *)
Definition literal (x : Q) : Q := round x.

(** [x / y] and [x * y] on floats.  The scripts divide by 10, by 100 and
    by a clipped owner count only; a zero divisor, on which [Qdiv] returns
    0, is outside the model. *)
Definition div (x y : Q) : Q := round (x / y).
Definition mul (x y : Q) : Q := round (x * y).

(** [n / d] on Python ints, for [d] other than zero: CPython rounds the
    exact quotient once. *)
Definition int_truediv (n d : Z) : Q := round (inject_Z n / inject_Z d).

(** [Series.clip(lower=lo)] on one cell. *)
Definition clip_lower (lo x : Q) : Q := if Qlt_le_dec x lo then lo else x.

Definition zero_pad (width : nat) (s : string) : string :=
  Text.repeat_char "0"%char (width - String.length s) ++ s.

(** The format spec [.pf]: [p] digits after the point, the exact binary
    value rounded to them with ties to even.  A negative value keeps its
    sign even when it rounds to zero. *)
Definition format_fixed (p : nat) (x : Q) : string :=
  let scale := 10 ^ Z.of_nat p in
  let t := round_half_even (Z.abs (Qnum x) * scale) (Zpos (Qden x)) in
  let sign := if Qnum x <? 0 then "-" else EmptyString in
  match p with
  | O => sign ++ Text.str t
  | _ => sign ++ Text.str (t / scale) ++ "." ++ zero_pad p (Text.str (t mod scale))
  end.

End Float.

(** ** DataFrame and list operations shared by the scripts *)

Module Frame.

Section Ordering.
Context {A : Type} (before : A -> A -> bool).

Fixpoint insert (x : A) (l : list A) : list A :=
  match l with
  | [] => [x]
  | y :: l' => if before x y then x :: l else y :: insert x l'
  end.

(** A stable sort: [x] stays ahead of a later [y] unless [before x y]
    fails. *)
Definition stable_sort (l : list A) : list A := fold_right insert [] l.
End Ordering.

(** [sort_values(by=key, ascending=True)] and [ascending=False] on an
    integer column.  pandas leaves the order of rows with equal keys to the
    sorting algorithm; the model keeps them in their order, and nothing
    proved below depends on that choice. *)
Definition sort_values_asc {A} (key : A -> Z) : list A -> list A :=
  stable_sort (fun x y => key x <=? key y).
Definition sort_values_desc {A} (key : A -> Z) : list A -> list A :=
  stable_sort (fun x y => key y <=? key x).

(** [sorted(l, key=key, reverse=True)]: descending, equal keys in their
    original order. *)
Definition sorted_reverse {A} (key : A -> Z) : list A -> list A :=
  stable_sort (fun x y => key y <=? key x).

(** [nlargest(n, column)] on a float column: the [n] rows with the largest
    values, largest first, the earlier row first among equal values. *)
Definition nlargest {A} (n : nat) (key : A -> Q) (l : list A) : list A :=
  firstn n (stable_sort (fun x y => Qle_bool (key y) (key x)) l).

(** [head(n)]. *)
Definition head {A} (n : nat) (l : list A) : list A := firstn n l.

(** [left.merge(right, on="id", how="left")]: every left row in order,
    once per right row with the same key (in the right table's order), or
    once with no partner. *)
Definition merge_left {A B C} (kl : A -> Z) (kr : B -> Z)
    (row : A -> option B -> C) (left : list A) (right : list B) : list C :=
  flat_map
    (fun a =>
       match filter (fun b => kr b =? kl a) right with
       | [] => [row a None]
       | partners => map (fun b => row a (Some b)) partners
       end)
    left.

End Frame.

(** ** The provider's data *)

Module Api.

(** One object of the [elements] array of the bootstrap endpoint, with the
    fields the scripts read.  [selected_by_percent] arrives as text or as
    a number: the field holds the float [pd.to_numeric] reads from it,
    [None] when it reads none. *)
Record element := {
  id : Z;
  web_name : string;
  team : Z;
  element_type : Z;
  status : string;
  now_cost : Z;
  cost_change_event : Z;
  transfers_in_event : Z;
  transfers_out_event : Z;
  selected_by_percent : option Q
}.

(** [yesterday_costs.csv] as [pd.read_csv] returns it: the column names
    and, per row, the two columns the scripts read. *)
Record yesterday_row := {
  y_id : Z;
  y_now_cost : Z
}.

Record yesterday_frame := {
  y_columns : list string;
  y_rows : list yesterday_row
}.

(** [pd.DataFrame()] *)
Definition empty_frame : yesterday_frame :=
  {| y_columns := []; y_rows := [] |}.

(** [df.empty]: some axis has length zero. *)
Definition empty (df : yesterday_frame) : bool :=
  match y_rows df, y_columns df with
  | _ :: _, _ :: _ => false
  | _, _ => true
  end.

End Api.

(** ** send_transfer_trends.py *)

Module SendTransferTrends.
Import Api.

Definition format_number (n : Z) : string :=
  if 1000000 <=? n then
    Float.format_fixed 1 (Float.int_truediv n 1000000) ++ "M"
  else if 1000 <=? n then
    Float.format_fixed 0 (Float.int_truediv n 1000) ++ "K"
  else Text.str n.

Definition get_transfer_trends (players : list element) (top_n : nat)
  : list element * list element :=
  (firstn top_n (Frame.sorted_reverse transfers_in_event players),
   firstn top_n (Frame.sorted_reverse transfers_out_event players)).

Definition net_of (p : element) : Z :=
  transfers_in_event p - transfers_out_event p.

Definition net_str (net : Z) : string :=
  if 0 <? net then "+" ++ format_number net else format_number net.

Fixpoint lines_from (i : Z) (direction : string) (count : element -> Z)
    (l : list element) : list string :=
  match l with
  | [] => []
  | p :: l' =>
      (Text.str i ++ ". " ++ web_name p ++ " — " ++ format_number (count p)
         ++ " " ++ direction ++ " (" ++ net_str (net_of p) ++ " net)")
        :: lines_from (i + 1) direction count l'
  end.

Definition format_transfer_message (today : string)
    (top_in top_out : list element) : string :=
  let title := "📊 Transfer Trends - " ++ today in
  let rule := Text.repeat_string "─" 30 in
  Text.join Text.newline
    (app [title; EmptyString; "🔥 Most Transferred IN"; EmptyString]
    (app (lines_from 1 "in" transfers_in_event top_in)
    (app [EmptyString; rule; EmptyString; "📉 Most Transferred OUT";
          EmptyString]
         (lines_from 1 "out" transfers_out_event top_out)))).

End SendTransferTrends.

(** ** What a call to the outside world gives back *)

(** A call either returns a value or raises an exception with a message. *)
Inductive outcome (A : Type) : Type :=
| Returned (a : A)
| Raised (e : string).
Arguments Returned {A} a.
Arguments Raised {A} e.

(** [pd.DataFrame(elements)] on an empty array is a frame without rows and
    without columns: the first selection of a column on it raises
    [KeyError].  A table with a row has every column of [Api.element]. *)
Definition key_error (column : string) : string :=
  "KeyError: '" ++ column ++ "'".

(** The error of selecting a list of columns none of which exists. *)
Definition keys_error (columns : list string) : string :=
  "KeyError: None of [Index([" ++ Text.join ", " (map (fun c => "'" ++ c ++ "'") columns)
    ++ "], dtype='object')] are in the [columns]".

(** ** send_price_predictions.py *)

Module SendPricePredictions.

Definition type_mapping (k : Z) : option string :=
  match k with
  | 1 => Some "GK"
  | 2 => Some "DEF"
  | 3 => Some "MID"
  | 4 => Some "FWD"
  | _ => None
  end.

(** [Series.map(dict)]: the value stored under the key, NaN without one. *)
Fixpoint lookup (teams : list (Z * string)) (k : Z) : option string :=
  match teams with
  | [] => None
  | (k', v) :: rest => if k' =? k then Some v else lookup rest k
  end.

(** [{t['id']: t['short_name'] for t in ...}]: a later entry with the same
    id replaces an earlier one. *)
Definition teams_dict (teams : list (Z * string)) : list (Z * string) :=
  rev teams.

(** A row of [players_df] once the [team] column has been rewritten. *)
Record teamed := {
  player : Api.element;
  team_name : option string
}.

(** A row of the frame [calculate_price_pressure] returns: the columns it
    was given, [selected_by_percent] made numeric, and the five new
    columns. *)
Record scored := {
  input : teamed;
  selected_by_percent : Q;
  owners : Q;
  net_transfers : Z;
  transfer_velocity : Q;
  rising_pressure : Q;
  falling_pressure : Q
}.

Definition total_managers : Z := 10000000.

(** [pd.to_numeric(..., errors='coerce').fillna(0)] on one cell. *)
Definition to_numeric_fillna (cell : option Q) : Q :=
  match cell with
  | Some q => q
  | None => 0%Q
  end.

(** The divisor of the three ratios: [df['owners'].clip(lower=10000)]. *)
Definition clipped_owners (owners : Q) : Q :=
  Float.clip_lower (Float.of_int 10000) owners.

Definition calculate_row (r : teamed) : scored :=
  let pct := to_numeric_fillna (Api.selected_by_percent (player r)) in
  let own :=
    Float.mul (Float.div pct (Float.of_int 100)) (Float.of_int total_managers) in
  let net :=
    Api.transfers_in_event (player r) - Api.transfers_out_event (player r) in
  {| input := r;
     selected_by_percent := pct;
     owners := own;
     net_transfers := net;
     transfer_velocity := Float.div (Float.of_int net) (clipped_owners own);
     rising_pressure :=
       Float.div (Float.of_int (Api.transfers_in_event (player r)))
                 (clipped_owners own);
     falling_pressure :=
       Float.div (Float.of_int (Api.transfers_out_event (player r)))
                 (clipped_owners own) |}.

(** The column computations of [calculate_price_pressure], row by row. *)
Definition pressure_columns (df : list teamed) : list scored :=
  map calculate_row df.

(** On the frame of an empty [elements] array the first column read,
    [df['selected_by_percent']], raises. *)
Definition calculate_price_pressure (df : list teamed) : outcome (list scored) :=
  match df with
  | [] => Raised (key_error "selected_by_percent")
  | _ => Returned (pressure_columns df)
  end.

(** A row of [analysis_df]: the columns listed in [cols]. *)
Record analysis_row := {
  a_web_name : string;
  a_team : option string;
  a_position : option string;
  a_price : Q;
  a_transfers_in_event : Z;
  a_transfers_out_event : Z;
  a_net_transfers : Z;
  a_selected_by_percent : Q;
  a_rising_pressure : Q;
  a_falling_pressure : Q
}.

(** The [position] and [price] columns, then the selection of [cols]. *)
Definition analysis_of (r : scored) : analysis_row :=
  let p := player (input r) in
  {| a_web_name := Api.web_name p;
     a_team := team_name (input r);
     a_position := type_mapping (Api.element_type p);
     a_price := Float.div (Float.of_int (Api.now_cost p)) (Float.of_int 10);
     a_transfers_in_event := Api.transfers_in_event p;
     a_transfers_out_event := Api.transfers_out_event p;
     a_net_transfers := net_transfers r;
     a_selected_by_percent := selected_by_percent r;
     a_rising_pressure := rising_pressure r;
     a_falling_pressure := falling_pressure r |}.

(** The [team] column: the short name under the team id, or the empty
    text on every row when the second request fails. *)
Definition with_team (teams : outcome (list (Z * string)))
    (p : Api.element) : teamed :=
  {| player := p;
     team_name :=
       match teams with
       | Returned ts => lookup (teams_dict ts) (Api.team p)
       | Raised _ => Some EmptyString
       end |}.

Definition meaningful_ownership : Q := Float.literal (1 # 10).

(** [get_price_predictions] from the display columns to the two lists. *)
Definition rank (players_df : list scored)
  : list analysis_row * list analysis_row :=
  let analysis_df := map analysis_of players_df in
  let meaningful :=
    filter (fun r => Qle_bool meaningful_ownership (a_selected_by_percent r))
           analysis_df in
  let rising :=
    Frame.nlargest 10 a_rising_pressure
      (filter (fun r => 0 <? a_net_transfers r) meaningful) in
  let rising := filter (fun r => 5000 <? a_transfers_in_event r) rising in
  let falling :=
    Frame.nlargest 10 a_falling_pressure
      (filter (fun r => a_net_transfers r <? 0) meaningful) in
  let falling := filter (fun r => 5000 <? a_transfers_out_event r) falling in
  (Frame.head 5 rising, Frame.head 5 falling).

(** The body of [get_price_predictions] below the two requests, on a table
    that has its columns. *)
Definition predictions (teams : outcome (list (Z * string)))
    (players : list Api.element) : list analysis_row * list analysis_row :=
  rank (pressure_columns (map (with_team teams) players)).

(** The triple [(rising, falling, error)]; Python's [None] is [None].  Only
    the first request sits in a [try] that returns; an error raised further
    down leaves the function. *)
Definition get_price_predictions
    (fpl_api : outcome (list Api.element))
    (teams_api : outcome (list (Z * string)))
  : outcome (option (list analysis_row) * option (list analysis_row)
             * option string) :=
  match fpl_api with
  | Raised e => Returned (None, None, Some ("Failed to fetch FPL data: " ++ e))
  | Returned players =>
      match calculate_price_pressure (map (with_team teams_api) players) with
      | Raised e => Raised e
      | Returned players_df =>
          let '(rising, falling) := rank players_df in
          Returned (Some rising, Some falling, None)
      end
  end.

End SendPricePredictions.

(** ** Running a script: the world it acts on *)

Module Run.

(** What a run leaves behind: the texts handed to [bot.send_message], with
    their destination, and the lines printed. *)
Record world := {
  outbox : list (Z * string);
  stdout : list string
}.

(** What a run finds: the answers of the two HTTP resources, the date, and
    the messaging platform's verdict on a send ([Some e]: it raises). *)
Record environment := {
  fpl_api : outcome (list Api.element);
  github_csv : outcome Api.yesterday_frame;
  today : string;
  telegram_rejects : Z -> string -> option string
}.

Definition M (A : Type) : Type := world -> outcome A * world.

Definition ret {A} (a : A) : M A := fun w => (Returned a, w).

Definition bind {A B} (m : M A) (k : A -> M B) : M B :=
  fun w =>
    match m w with
    | (Returned a, w') => k a w'
    | (Raised e, w') => (Raised e, w')
    end.

Definition raise {A} (e : string) : M A := fun w => (Raised e, w).

(** [try: body except Exception as e: handler(e)] *)
Definition try_except {A} (body : M A) (handler : string -> M A) : M A :=
  fun w =>
    match body w with
    | (Returned a, w') => (Returned a, w')
    | (Raised e, w') => handler e w'
    end.

Definition lift {A} (r : outcome A) : M A := fun w => (r, w).

Definition print (line : string) : M unit :=
  fun w => (Returned tt, {| outbox := outbox w; stdout := stdout w ++ [line] |}).

(** [bot.send_message(chat, text)] *)
Definition send_message (env : environment) (chat : Z) (text : string) : M unit :=
  fun w =>
    let w' := {| outbox := outbox w ++ [(chat, text)]; stdout := stdout w |} in
    match telegram_rejects env chat text with
    | Some e => (Raised e, w')
    | None => (Returned tt, w')
    end.

End Run.

Declare Scope run_scope.
Delimit Scope run_scope with run.
Notation "x <- m ;; k" := (Run.bind m (fun x => k))
  (at level 61, m at next level, right associativity) : run_scope.
Notation "m ;;; k" := (Run.bind m (fun _ => k))
  (at level 61, right associativity) : run_scope.

(** [repr] of a list of column names. *)
Definition repr_columns (cols : list string) : string :=
  "[" ++ Text.join ", " (map (fun c => "'" ++ c ++ "'") cols) ++ "]".

(** ** main.py *)

Module Main.
Import Run.
Local Open Scope run_scope.

Definition CHAT_ID : Z := -1002392242605.

(** [type_mapping] has integer keys for the position and text keys for
    the status; each column is mapped through the keys of its own type. *)
Definition type_mapping_position (k : Z) : option string :=
  match k with
  | 1 => Some "GK"
  | 2 => Some "DEF"
  | 3 => Some "MID"
  | 4 => Some "FWD"
  | _ => None
  end.

Definition type_mapping_status (k : string) : option string :=
  if String.eqb k "u" then Some "Unavailable"
  else if String.eqb k "a" then Some "Available"
  else if String.eqb k "d" then Some "Doubtful"
  else if String.eqb k "NaN" then Some "Info unavailable"
  else None.

Definition fetch_fpl_data (env : environment) : M (list Api.element) :=
  lift (fpl_api env).

Definition load_yesterday_costs (env : environment) : M Api.yesterday_frame :=
  try_except
    (df <- lift (github_csv env) ;;
     print ("Loaded " ++ Text.str (Z.of_nat (List.length (Api.y_rows df)))
              ++ " records from yesterday's data") ;;;
     print ("Yesterday's data columns: " ++ repr_columns (Api.y_columns df)) ;;;
     ret df)
    (fun e =>
       print ("Error loading yesterday's costs: " ++ e) ;;;
       ret Api.empty_frame).

(** A row of [merged_df] after steps 3 to 6.  The columns that come from
    yesterday's table are NaN on a row without a partner. *)
Record merged_row := {
  id : Z;
  web_name : string;
  now_cost : Z;
  cost_change_event : Z;
  position : option string;
  availability : option string;
  now_cost_yest : option Z;
  daily_change : option Z;
  prev_cost : option Z
}.

(** A row of [price_changed_players] after step 8. *)
Record changed_row := {
  row : merged_row;
  arrow : string
}.

(** Steps 3 to 6 on one pair of rows. *)
Definition merge_row (p : Api.element) (y : option Api.yesterday_row)
  : merged_row :=
  let yest := option_map Api.y_now_cost y in
  {| id := Api.id p;
     web_name := Api.web_name p;
     now_cost := Api.now_cost p;
     cost_change_event := Api.cost_change_event p;
     position := type_mapping_position (Api.element_type p);
     availability := type_mapping_status (Api.status p);
     now_cost_yest := yest;
     daily_change := option_map (fun c => Api.now_cost p - c) yest;
     prev_cost := yest |}.

(** [daily_change != 0]: true on NaN. *)
Definition changed (r : merged_row) : bool :=
  match daily_change r with
  | Some d => negb (d =? 0)
  | None => true
  end.

(** The lambda of step 8; both comparisons are false on NaN. *)
Definition arrow_of (x : option Z) : string :=
  match x with
  | Some d => if 0 <? d then "up" else if d <? 0 then "down" else "no_change"
  | None => "no_change"
  end.

(** Steps 3 to 6 of [get_price_changes]: the frame [merged_df]. *)
Definition merged_df (players_df : list Api.element)
    (yesterday_df : Api.yesterday_frame) : list merged_row :=
  Frame.merge_left Api.id Api.y_id merge_row players_df
                   (Api.y_rows yesterday_df).

(** Steps 7 to 10 of [get_price_changes]: the frames [price_falls] and
    [price_rises]. *)
Definition price_tables (players_df : list Api.element)
    (yesterday_df : Api.yesterday_frame) : list changed_row * list changed_row :=
  let merged_df := merged_df players_df yesterday_df in
  let price_changed_players :=
    map (fun r => {| row := r; arrow := arrow_of (daily_change r) |})
        (filter changed merged_df) in
  let price_rises :=
    filter (fun r => String.eqb (arrow r) "up") price_changed_players in
  let price_falls :=
    filter (fun r => String.eqb (arrow r) "down") price_changed_players in
  (Frame.sort_values_asc (fun r => now_cost (row r)) price_falls,
   Frame.sort_values_asc (fun r => now_cost (row r)) price_rises).

(** [x / 10] shown with [.1f]; NaN prints as [nan]. *)
Definition tenths (x : option Q) : string :=
  match x with
  | Some v => Float.format_fixed 1 (Float.div v (Float.of_int 10))
  | None => "nan"
  end.

Definition format_line (player : changed_row) : string :=
  Text.ljust 15 (web_name (row player))
    ++ "£" ++ Text.ljust 12 (tenths (Some (Float.of_int (now_cost (row player)))))
    ++ "£" ++ tenths (option_map Float.of_int (prev_cost (row player))).

Definition format_price_changes (df : list changed_row) (change_type : string)
  : string :=
  let arrow := if String.eqb change_type "Price Falls" then "🔽" else "🔼" in
  let header := change_type ++ " " ++ arrow ++ Text.newline ++ Text.newline in
  let subheader := "Player          New Price     Old Price" ++ Text.newline in
  let message_lines := map format_line df in
  let body := Text.join Text.newline message_lines in
  header ++ subheader ++ body.

Definition missing_csv_warning : string :=
  "Warning: No 'yesterday_costs.csv' found.".

(** The columns step 3 selects from today's frame. *)
Definition clean_columns : list string :=
  ["id"; "web_name"; "now_cost"; "cost_change_event"].

(** Step 3 raises on the frame of an empty [elements] array, which has no
    columns; the check for a missing baseline comes before it. *)
Definition get_price_changes (env : environment) : M (string * string) :=
  players_df <- fetch_fpl_data env ;;
  yesterday_df <- load_yesterday_costs env ;;
  if Api.empty yesterday_df then ret (missing_csv_warning, EmptyString)
  else
    match players_df with
    | [] => raise (keys_error clean_columns)
    | _ =>
        let '(price_falls, price_rises) := price_tables players_df yesterday_df in
        ret (format_price_changes price_falls "Price Falls",
             format_price_changes price_rises "Price Rises")
    end.

Definition format_final_message (env : environment)
    (falls_message rises_message : string) : string :=
  "Price Changes for " ++ today env ++ Text.newline ++ Text.newline
    ++ falls_message ++ Text.newline ++ Text.newline
    ++ "----------------------------------------" ++ Text.newline ++ Text.newline
    ++ rises_message.

(** [message.chat.id] is the chat the command came from. *)
Definition handle_price_changes (env : environment) (message_chat_id : Z)
  : M unit :=
  msgs <- get_price_changes env ;;
  let '(falls_message, rises_message) := msgs in
  if Text.contains "Warning:" falls_message
     && String.eqb rises_message EmptyString
  then send_message env message_chat_id falls_message
  else
    let final_msg := format_final_message env falls_message rises_message in
    send_message env message_chat_id final_msg.

Definition send_price_update (env : environment) : M unit :=
  msgs <- get_price_changes env ;;
  let '(falls_message, rises_message) := msgs in
  if Text.contains "Warning:" falls_message
     && String.eqb rises_message EmptyString
  then send_message env CHAT_ID falls_message
  else
    let final_msg := format_final_message env falls_message rises_message in
    send_message env CHAT_ID final_msg.

End Main.

(** ** send_update.py *)

Module SendUpdate.
Import Run.
Local Open Scope run_scope.

Definition type_mapping (k : Z) : option string :=
  match k with
  | 1 => Some "GK"
  | 2 => Some "DEF"
  | 3 => Some "MID"
  | 4 => Some "FWD"
  | _ => None
  end.

Definition fetch_fpl_data (env : environment) : M (list Api.element) :=
  lift (fpl_api env).

Definition load_yesterday_costs (env : environment) : M Api.yesterday_frame :=
  try_except
    (df <- lift (github_csv env) ;;
     print ("Loaded " ++ Text.str (Z.of_nat (List.length (Api.y_rows df)))
              ++ " records from yesterday's data") ;;;
     ret df)
    (fun e =>
       print ("Error loading yesterday's costs: " ++ e) ;;;
       ret Api.empty_frame).

(** A row of [merged_df] with its two computed columns. *)
Record merged_row := {
  id : Z;
  web_name : string;
  now_cost : Z;
  element_type : Z;
  position : option string;
  now_cost_yest : option Z;
  daily_change : option Z;
  prev_cost : option Z
}.

Definition merge_row (p : Api.element) (y : option Api.yesterday_row)
  : merged_row :=
  let yest := option_map Api.y_now_cost y in
  {| id := Api.id p;
     web_name := Api.web_name p;
     now_cost := Api.now_cost p;
     element_type := Api.element_type p;
     position := type_mapping (Api.element_type p);
     now_cost_yest := yest;
     daily_change := option_map (fun c => Api.now_cost p - c) yest;
     prev_cost := yest |}.

(** The three masks on [daily_change]; on NaN [!=] is true and the two
    order comparisons are false. *)
Definition changed (r : merged_row) : bool :=
  match daily_change r with
  | Some d => negb (d =? 0)
  | None => true
  end.

Definition risen (r : merged_row) : bool :=
  match daily_change r with
  | Some d => 0 <? d
  | None => false
  end.

Definition fallen (r : merged_row) : bool :=
  match daily_change r with
  | Some d => d <? 0
  | None => false
  end.

(** The frame [merged_df] of [get_price_changes]. *)
Definition merged_df (players_df : list Api.element)
    (yesterday_df : Api.yesterday_frame) : list merged_row :=
  Frame.merge_left Api.id Api.y_id merge_row players_df
                   (Api.y_rows yesterday_df).

(** The frames [rises] and [falls] of [get_price_changes]. *)
Definition price_tables (players_df : list Api.element)
    (yesterday_df : Api.yesterday_frame) : list merged_row * list merged_row :=
  let merged_df := merged_df players_df yesterday_df in
  let changed := filter changed merged_df in
  (Frame.sort_values_desc now_cost (filter risen changed),
   Frame.sort_values_desc now_cost (filter fallen changed)).

(** The columns selected from today's frame. *)
Definition clean_columns : list string :=
  ["id"; "web_name"; "now_cost"; "element_type"].

(** The triple [(rises, falls, error)].  The selection of [clean_columns]
    raises on the frame of an empty [elements] array, which has no columns;
    the check for a missing baseline comes before it. *)
Definition get_price_changes (env : environment)
  : M (option (list merged_row) * option (list merged_row) * option string) :=
  players_df <- fetch_fpl_data env ;;
  yesterday_df <- load_yesterday_costs env ;;
  if Api.empty yesterday_df
  then ret (None, None, Some "Could not load yesterday's data")
  else
    match players_df with
    | [] => raise (keys_error clean_columns)
    | _ =>
        let '(rises, falls) := price_tables players_df yesterday_df in
        ret (Some rises, Some falls, None)
    end.

Definition tenths (x : option Q) : string :=
  match x with
  | Some v => Float.format_fixed 1 (Float.div v (Float.of_int 10))
  | None => "nan"
  end.

Definition format_line (player : merged_row) : string :=
  Text.ljust 15 (web_name player)
    ++ "£" ++ Text.ljust 12 (tenths (Some (Float.of_int (now_cost player))))
    ++ "£" ++ tenths (option_map Float.of_int (prev_cost player)).

Definition format_price_changes (df : list merged_row) (change_type : string)
  : string :=
  let arrow := if String.eqb change_type "Price Falls" then "🔽" else "🔼" in
  let header := change_type ++ " " ++ arrow ++ Text.newline ++ Text.newline in
  let subheader := "Player          New Price     Old Price" ++ Text.newline in
  match df with
  | [] => header ++ "None"
  | _ => header ++ subheader ++ Text.join Text.newline (map format_line df)
  end.

End SendUpdate.

(** ** Concrete tables used to run the scripts *)

Module Sample.

Definition player (id : Z) (name : string) (cost transfers_in transfers_out : Z)
    (percent : option Q) : Api.element :=
  {| Api.id := id;
     Api.web_name := name;
     Api.team := 1;
     Api.element_type := 3;
     Api.status := "a";
     Api.now_cost := cost;
     Api.cost_change_event := 0;
     Api.transfers_in_event := transfers_in;
     Api.transfers_out_event := transfers_out;
     Api.selected_by_percent := percent |}.

Definition yesterday (rows : list (Z * Z)) : Api.yesterday_frame :=
  {| Api.y_columns := ["id"; "now_cost"];
     Api.y_rows := map (fun r => {| Api.y_id := fst r; Api.y_now_cost := snd r |}) rows |}.

(** Two players whose price fell by half a unit each. *)
Definition two_fallers : list Api.element :=
  [player 1 "Onana" 45 0 0 None; player 2 "Saka" 60 0 0 None].

Definition two_fallers_yesterday : Api.yesterday_frame :=
  yesterday [(1, 50); (2, 65)].

(** One player who rose from 5.0 to 5.5. *)
Definition one_riser : list Api.element := [player 1 "Palmer" 55 0 0 None].

Definition one_riser_yesterday : Api.yesterday_frame := yesterday [(1, 50)].

(** Ten players owned by 0.1% with 5000 transfers in, and one owned by
    half of all managers with 6000 transfers in. *)
Definition quiet (k : Z) : Api.element :=
  player k "Quiet" 40 5000 0 (Some (Float.literal (1 # 10))).

Definition busy : Api.element :=
  player 11 "Busy" 100 6000 0 (Some (Float.literal 50)).

Definition crowd : list Api.element :=
  map quiet [1; 2; 3; 4; 5; 6; 7; 8; 9; 10] ++ [busy].

(** The same with the transfers going out. *)
Definition quiet_out (k : Z) : Api.element :=
  player k "Quiet" 40 0 5000 (Some (Float.literal (1 # 10))).

Definition busy_out : Api.element :=
  player 11 "Busy" 100 0 6000 (Some (Float.literal 50)).

Definition no_teams : outcome (list (Z * string)) := Returned [].

Definition fresh_world : Run.world := {| Run.outbox := []; Run.stdout := [] |}.

End Sample.

(** ** The prediction lists in words

    Two readings of how the final lists are obtained from the player table,
    each written on the provider's rows; [row_of] is the row of
    [analysis_df] a player ends up as. *)

Module Claimed.
Import SendPricePredictions.

Definition row_of (teams : outcome (list (Z * string))) (p : Api.element)
  : analysis_row :=
  analysis_of (calculate_row (with_team teams p)).

Definition ownership (p : Api.element) : Q :=
  to_numeric_fillna (Api.selected_by_percent p).

(** Estimated owner count: ownership / 100 x 10,000,000. *)
Definition owner_count (p : Api.element) : Q :=
  Float.mul (Float.div (ownership p) (Float.of_int 100)) (Float.of_int 10000000).

(** A transfer count over max(owner count, 10000). *)
Definition pressure (count : Api.element -> Z) (p : Api.element) : Q :=
  Float.div (Float.of_int (count p))
            (Float.clip_lower (Float.of_int 10000) (owner_count p)).

Definition net (p : Api.element) : Z :=
  Api.transfers_in_event p - Api.transfers_out_event p.

Definition owned_enough (p : Api.element) : bool :=
  Qle_bool (Float.literal (1 # 10)) (ownership p).

(** Ownership of at least 0.1 percent, as a proposition. *)
Definition meaningful_ownership_le (p : Api.element) : Prop :=
  (Float.literal (1 # 10) <= ownership p)%Q.

(** The claim's reading: the three conditions first, then the ten
    largest, then the first five. *)
Definition rising_filter_first (players : list Api.element) : list Api.element :=
  firstn 5
    (Frame.nlargest 10 (pressure Api.transfers_in_event)
       (filter (fun p => owned_enough p && (0 <? net p)
                         && (5000 <? Api.transfers_in_event p))
               players)).

Definition falling_filter_first (players : list Api.element) : list Api.element :=
  firstn 5
    (Frame.nlargest 10 (pressure Api.transfers_out_event)
       (filter (fun p => owned_enough p && (net p <? 0)
                         && (5000 <? Api.transfers_out_event p))
               players)).

(** The other reading: ownership and net direction first, then the ten
    largest, then the activity floor on those ten, then the first five. *)
Definition rising_floor_last (players : list Api.element) : list Api.element :=
  firstn 5
    (filter (fun p => 5000 <? Api.transfers_in_event p)
       (Frame.nlargest 10 (pressure Api.transfers_in_event)
          (filter (fun p => owned_enough p && (0 <? net p)) players))).

Definition falling_floor_last (players : list Api.element) : list Api.element :=
  firstn 5
    (filter (fun p => 5000 <? Api.transfers_out_event p)
       (Frame.nlargest 10 (pressure Api.transfers_out_event)
          (filter (fun p => owned_enough p && (net p <? 0)) players))).

End Claimed.

(** ** Orderings a claim speaks of *)

(** Whenever [a] comes before [b] in the list, [a]'s price is at most [b]'s. *)
Definition ascending {A} (price : A -> Z) (l : list A) : Prop :=
  StronglySorted (fun a b => price a <= price b) l.

(** ** send_price_predictions.py: the text of a prediction list *)

Module SendPricePredictionsReport.
Import SendPricePredictions.

(** [str.upper()] on the letters a to z; the two call sites pass "rise" and
    "fall". *)
Definition upper_char (c : ascii) : ascii :=
  let b := nat_of_ascii c in
  if (97 <=? b)%nat && (b <=? 122)%nat then ascii_of_nat (b - 32) else c.

Fixpoint upper (s : string) : string :=
  match s with
  | EmptyString => EmptyString
  | String c rest => String (upper_char c) (upper rest)
  end.

(** Digits, last one first, with a comma after every third one that has a
    digit after it. *)
Fixpoint group_reversed (l : list ascii) : list ascii :=
  match l with
  | a :: b :: c :: rest =>
      match rest with
      | [] => l
      | _ => a :: b :: c :: ","%char :: group_reversed rest
      end
  | _ => l
  end.

Definition group_digits (digits : string) : string :=
  string_of_list_ascii (rev (group_reversed (rev (list_ascii_of_string digits)))).

(** The format spec [:,] on a Python int. *)
Definition with_commas (n : Z) : string :=
  if n <? 0 then "-" ++ group_digits (Text.str (- n))
  else group_digits (Text.str n).

(** The text without its commas. *)
Definition strip_commas (s : string) : string :=
  string_of_list_ascii
    (filter (fun c => negb (Ascii.eqb c ","%char)) (list_ascii_of_string s)).

(** A cell of the [team] column inside an f-string; NaN prints as [nan]. *)
Definition team_text (t : option string) : string :=
  match t with
  | Some name => name
  | None => "nan"
  end.

Definition net_text (net : Z) : string :=
  if 0 <? net then "+" ++ with_commas net else with_commas net.

Definition prediction_lines (p : analysis_row) : string :=
  a_web_name p ++ " (" ++ team_text (a_team p) ++ ")" ++ Text.newline
    ++ "  £" ++ Float.format_fixed 1 (a_price p)
    ++ " | " ++ Float.format_fixed 1 (a_selected_by_percent p) ++ "%"
    ++ " | Net: " ++ net_text (a_net_transfers p).

Definition format_predictions (df : list analysis_row) (direction : string)
  : string :=
  let emoji := if String.eqb direction "rise" then "📈" else "📉" in
  let header :=
    "Likely to " ++ upper direction ++ " tonight " ++ emoji
      ++ Text.newline ++ Text.newline in
  match df with
  | [] => header ++ "No strong predictions"
  | _ => header ++ Text.join (Text.newline ++ Text.newline) (map prediction_lines df)
  end.

End SendPricePredictionsReport.

(** ** Prices as they are meant to be read *)

Module Shown.

(** A price of [c] tenths written in units with one decimal. *)
Definition tenths_text (c : Z) : string :=
  Text.str (c / 10) ++ "." ++ Text.str (c mod 10).

(** What the two change calculators agree on in a listed row. *)
Definition main_summary (r : Main.changed_row) : Z * Z * option Z :=
  (Main.id (Main.row r), Main.now_cost (Main.row r), Main.prev_cost (Main.row r)).

Definition update_summary (r : SendUpdate.merged_row) : Z * Z * option Z :=
  (SendUpdate.id r, SendUpdate.now_cost r, SendUpdate.prev_cost r).

(** A row of the prediction table without its team column. *)
Definition prediction_figures (r : SendPricePredictions.analysis_row)
  : string * option string * Q * (Z * Z * Z) * (Q * Q * Q) :=
  (SendPricePredictions.a_web_name r,
   SendPricePredictions.a_position r,
   SendPricePredictions.a_price r,
   (SendPricePredictions.a_transfers_in_event r,
    SendPricePredictions.a_transfers_out_event r,
    SendPricePredictions.a_net_transfers r),
   (SendPricePredictions.a_selected_by_percent r,
    SendPricePredictions.a_rising_pressure r,
    SendPricePredictions.a_falling_pressure r)).

(** The three columns a line of the price-change message is made of. *)
Definition main_line_fields (r : Main.changed_row) : string * Z * option Z :=
  (Main.web_name (Main.row r), Main.now_cost (Main.row r),
   Main.prev_cost (Main.row r)).

Definition update_line_fields (r : SendUpdate.merged_row)
  : string * Z * option Z :=
  (SendUpdate.web_name r, SendUpdate.now_cost r, SendUpdate.prev_cost r).

(** The yesterday frame a run works with: the one fetched, or the empty one
    when the request or the parse raised. *)
Definition loaded (env : Run.environment) : Api.yesterday_frame :=
  match Run.github_csv env with
  | Returned df => df
  | Raised _ => Api.empty_frame
  end.

End Shown.

(** ** The join on its own: players paired with yesterday's rows *)

Module Paired.

Definition pairs (players : list Api.element) (y : Api.yesterday_frame)
  : list (Api.element * option Api.yesterday_row) :=
  Frame.merge_left Api.id Api.y_id pair players (Api.y_rows y).

Definition pair_summary (ab : Api.element * option Api.yesterday_row)
  : Z * Z * option Z :=
  (Api.id (fst ab), Api.now_cost (fst ab), option_map Api.y_now_cost (snd ab)).

Definition pair_change (ab : Api.element * option Api.yesterday_row) : option Z :=
  option_map (fun b => Api.now_cost (fst ab) - Api.y_now_cost b) (snd ab).

Definition rose (ab : Api.element * option Api.yesterday_row) : bool :=
  match pair_change ab with Some d => 0 <? d | None => false end.

Definition fell (ab : Api.element * option Api.yesterday_row) : bool :=
  match pair_change ab with Some d => d <? 0 | None => false end.

End Paired.

(** ** The one-shot scripts as processes *)

Module Oneshot.

(** What a run leaves behind: the texts handed to [bot.send_message], with
    their destination, and the lines printed. *)
Record world := {
  sent : list (string * string);
  printed : list string
}.

(** How the process ends: [main] returns, or [sys.exit(code)]. *)
Inductive ending : Type :=
| Finished
| Exited (code : Z).

(** What a run finds: the two environment variables, the answers to the two
    requests, the clock read when [main] starts and the date read when the
    message is built, and the platform's verdict on a send. *)
Record environment := {
  api_key : option string;
  chat_id : option string;
  fpl_api : outcome (list Api.element);
  teams_api : outcome (list (Z * string));
  now : string;
  today : string;
  rejects : string -> string -> option string
}.

Definition print (line : string) (w : world) : world :=
  {| sent := sent w; printed := printed w ++ [line] |}.

Definition record_send (chat text : string) (w : world) : world :=
  {| sent := sent w ++ [(chat, text)]; printed := printed w |}.

(** [not API_KEY]: the variable is unset or empty. *)
Definition no_api_key (env : environment) : bool :=
  match api_key env with
  | None => true
  | Some k => String.eqb k EmptyString
  end.

(** [os.getenv('CHAT_ID') or default]: the default also replaces an empty
    value. *)
Definition getenv_or (value : option string) (default : string) : string :=
  match value with
  | None => default
  | Some v => if String.eqb v EmptyString then default else v
  end.

(** [os.getenv('CHAT_ID', default)]: the default replaces an unset value
    only. *)
Definition getenv_default (value : option string) (default : string) : string :=
  match value with
  | None => default
  | Some v => v
  end.

End Oneshot.

(** ** send_transfer_trends.py, run as a script *)

Module TrendsScript.
Import Oneshot.

Definition CHAT_ID (env : environment) : string :=
  getenv_or (chat_id env) "@fplpricechanges".

Definition main (env : environment) (w : world) : ending * world :=
  let w := print ("Sending transfer trends at " ++ now env) w in
  match fpl_api env with
  | Raised e => (Exited 1, print ("Error: " ++ e) w)
  | Returned players =>
      let '(top_in, top_out) := SendTransferTrends.get_transfer_trends players 10 in
      let message :=
        SendTransferTrends.format_transfer_message (today env) top_in top_out in
      let w := record_send (CHAT_ID env) message w in
      match rejects env (CHAT_ID env) message with
      | Some e => (Exited 1, print ("Error: " ++ e) w)
      | None => (Finished, print "Message sent successfully!" w)
      end
  end.

(** The module body up to the call of [main]. *)
Definition script (env : environment) (w : world) : ending * world :=
  if no_api_key env
  then (Exited 1, print "ERROR: API_KEY environment variable not set" w)
  else main env w.

End TrendsScript.

(** ** send_price_predictions.py, run as a script *)

Module PredictionsScript.
Import Oneshot.

Definition CHAT_ID (env : environment) : string :=
  getenv_default (chat_id env) "-1002392242605".

Definition error_message (error : string) : string :=
  "⚠️ Price Prediction Error" ++ Text.newline ++ Text.newline ++ error.

Definition predictions_message
    (rising falling : list SendPricePredictions.analysis_row) : string :=
  let rising_msg := SendPricePredictionsReport.format_predictions rising "rise" in
  let falling_msg := SendPricePredictionsReport.format_predictions falling "fall" in
  "🔮 Price Predictions for Tonight" ++ Text.newline
    ++ Text.repeat_string "─" 25 ++ Text.newline ++ Text.newline
    ++ rising_msg ++ Text.newline ++ Text.newline
    ++ Text.repeat_string "─" 30 ++ Text.newline ++ Text.newline
    ++ falling_msg ++ Text.newline ++ Text.newline
    ++ "⏰ Prices update around 2:30am UK".

(** The [try] block around [bot.send_message] and what follows it. *)
Definition deliver (env : environment) (message : string) (w : world)
  : ending * world :=
  let w := record_send (CHAT_ID env) message w in
  match rejects env (CHAT_ID env) message with
  | Some e => (Exited 1, print ("Failed to send message: " ++ e) w)
  | None => (Finished, print "Message sent successfully!" w)
  end.

(** [get_price_predictions] returns an error text, never empty, or both
    tables; any other triple would fail in [format_predictions] before a
    send.  An error it raises is caught nowhere: the process ends with
    status 1 before the send. *)
Definition main (env : environment) (w : world) : ending * world :=
  let w := print ("Sending price predictions at " ++ now env) w in
  match SendPricePredictions.get_price_predictions (fpl_api env) (teams_api env) with
  | Raised _ => (Exited 1, w)
  | Returned (_, _, Some error) => deliver env (error_message error) w
  | Returned (Some rising, Some falling, None) =>
      deliver env (predictions_message rising falling) w
  | Returned _ => (Exited 1, w)
  end.

Definition script (env : environment) (w : world) : ending * world :=
  if no_api_key env
  then (Exited 1, print "ERROR: API_KEY environment variable not set" w)
  else main env w.

End PredictionsScript.

(** ** A player in a list *)

Module Listed.

(** A player is in a list of the change calculator when the list holds a
    merged row of that player, whichever row of yesterday's table it was
    merged with. *)
Definition main_player_in (p : Api.element) (l : list Main.changed_row) : Prop :=
  exists y, In (Main.merge_row p y) (map Main.row l).

Definition update_player_in (p : Api.element) (l : list SendUpdate.merged_row)
  : Prop :=
  exists y, In (SendUpdate.merge_row p y) l.

(** One player at 5.5 and a baseline that records the id twice, at 5.0 and
    at 6.0. *)
Definition twice_yesterday : Api.yesterday_frame :=
  {| Api.y_columns := ["id"; "now_cost"];
     Api.y_rows := [ {| Api.y_id := 1; Api.y_now_cost := 50 |};
                     {| Api.y_id := 1; Api.y_now_cost := 60 |} ] |}.

Definition palmer : Api.element :=
  {| Api.id := 1;
     Api.web_name := "Palmer";
     Api.team := 1;
     Api.element_type := 3;
     Api.status := "a";
     Api.now_cost := 55;
     Api.cost_change_event := 0;
     Api.transfers_in_event := 0;
     Api.transfers_out_event := 0;
     Api.selected_by_percent := None |}.

End Listed.

(** * Properties *)

(** ** Rounding to the nearest integer *)

Lemma round_half_even_close (a b : Z) :
  0 < b -> Z.abs (2 * (b * round_half_even a b - a)) <= b.
Proof.
  intros Hb. unfold round_half_even.
  pose proof (Z.div_mod a b ltac:(lia)) as Hdm.
  pose proof (Z.mod_pos_bound a b Hb) as Hr.
  destruct (Z.ltb_spec (2 * (a mod b)) b);
    [| destruct (Z.ltb_spec b (2 * (a mod b))); [| destruct (Z.even (a / b))]];
    nia.
Qed.

Lemma round_half_even_nonneg (a b : Z) :
  0 <= a -> 0 < b -> 0 <= round_half_even a b.
Proof.
  intros Ha Hb. unfold round_half_even.
  pose proof (Z.div_pos a b Ha Hb).
  destruct (_ <? _); [| destruct (_ <? _); [| destruct (Z.even _)]]; lia.
Qed.

(** ** The float model: one rounding loses at most one part in [2^53] *)

Module FloatFacts.
Import Float.

Lemma pow2_pos (k : Z) : 0 < 2 ^ Z.max 0 k.
Proof. apply Z.pow_pos_nonneg; lia. Qed.

Lemma pow2_split (x y : Z) : 0 <= x -> 0 <= y -> 2 ^ (x + y) = 2 ^ x * 2 ^ y.
Proof. intros. apply Z.pow_add_r; assumption. Qed.

(** The exponent chosen by [ilog2_ratio] does not exceed the true one. *)
Lemma ilog2_ratio_lower (a b : Z) :
  0 < a -> 0 < b -> scaled_le (ilog2_ratio a b) a b = true.
Proof.
  intros Ha Hb. unfold ilog2_ratio.
  destruct (scaled_le (Z.log2 a - Z.log2 b) a b) eqn:E; [exact E |].
  pose proof (Z.log2_spec a Ha) as [La Ua].
  pose proof (Z.log2_spec b Hb) as [Lb Ub].
  pose proof (Z.log2_nonneg a) as Na. pose proof (Z.log2_nonneg b) as Nb.
  unfold scaled_le. apply Z.leb_le.
  set (la := Z.log2 a) in *. set (lb := Z.log2 b) in *.
  destruct (Z_le_gt_dec 1 (la - lb)) as [Hk | Hk].
  - replace (Z.max 0 (la - lb - 1)) with (la - lb - 1) by lia.
    replace (Z.max 0 (- (la - lb - 1))) with 0 by lia.
    rewrite Z.pow_0_r, Z.mul_1_r.
    assert (2 ^ la = 2 ^ lb * 2 ^ (la - lb - 1) * 2) as Hs.
    { replace la with (lb + (la - lb - 1) + 1) at 1 by lia.
      rewrite !pow2_split by lia. reflexivity. }
    assert (0 < 2 ^ (la - lb - 1)) by (apply Z.pow_pos_nonneg; lia).
    replace (Z.succ lb) with (lb + 1) in Ub by lia.
    rewrite pow2_split in Ub by lia. change (2 ^ 1) with 2 in Ub.
    nia.
  - replace (Z.max 0 (la - lb - 1)) with 0 by lia.
    replace (Z.max 0 (- (la - lb - 1))) with (lb + 1 - la) by lia.
    rewrite Z.pow_0_r, Z.mul_1_r.
    assert (2 ^ (lb + 1) = 2 ^ la * 2 ^ (lb + 1 - la)) as Hs.
    { replace (lb + 1) with (la + (lb + 1 - la)) at 1 by lia.
      rewrite pow2_split by lia. reflexivity. }
    assert (0 < 2 ^ (lb + 1 - la)) by (apply Z.pow_pos_nonneg; lia).
    replace (Z.succ lb) with (lb + 1) in Ub by lia.
    nia.
Qed.

(** With [e] the exponent of the last kept bit, [a / b] is at least
    [2^52] units of [2^e]. *)
Lemma mantissa_lower (a b : Z) :
  0 < a -> 0 < b ->
  let e := ilog2_ratio a b - (precision - 1) in
  2 ^ 52 * (b * 2 ^ Z.max 0 e) <= a * 2 ^ Z.max 0 (- e).
Proof.
  intros Ha Hb e. subst e.
  pose proof (ilog2_ratio_lower a b Ha Hb) as H.
  unfold scaled_le in H. apply Z.leb_le in H.
  unfold precision. set (fl := ilog2_ratio a b) in *.
  destruct (Z_le_gt_dec 52 fl) as [C | C].
  - replace (Z.max 0 (fl - (53 - 1))) with (fl - 52) by lia.
    replace (Z.max 0 (- (fl - (53 - 1)))) with 0 by lia.
    replace (Z.max 0 fl) with (52 + (fl - 52)) in H by lia.
    replace (Z.max 0 (- fl)) with 0 in H by lia.
    rewrite pow2_split in H by lia. rewrite Z.pow_0_r in *. lia.
  - replace (Z.max 0 (fl - (53 - 1))) with 0 by lia.
    replace (Z.max 0 (- (fl - (53 - 1)))) with (52 - fl) by lia.
    rewrite Z.pow_0_r.
    destruct (Z_le_gt_dec 0 fl) as [C0 | C0].
    + replace (Z.max 0 fl) with fl in H by lia.
      replace (Z.max 0 (- fl)) with 0 in H by lia.
      rewrite Z.pow_0_r in H.
      assert (2 ^ 52 = 2 ^ fl * 2 ^ (52 - fl)) as Hs.
      { replace 52 with (fl + (52 - fl)) at 1 by lia.
        rewrite pow2_split by lia. reflexivity. }
      assert (0 < 2 ^ (52 - fl)) by (apply Z.pow_pos_nonneg; lia).
      rewrite Hs. nia.
    + replace (Z.max 0 fl) with 0 in H by lia.
      replace (Z.max 0 (- fl)) with (- fl) in H by lia.
      rewrite Z.pow_0_r in H.
      replace (52 - fl) with (52 + - fl) by lia.
      rewrite pow2_split by lia.
      assert (0 < 2 ^ 52) by (apply Z.pow_pos_nonneg; lia).
      nia.
Qed.

(** The relative error of one rounding is at most [2^-53]. *)
Lemma round_ratio_error (a b : Z) :
  0 < a -> 0 < b ->
  let '(n, d) := round_ratio a b in
  0 <= n /\ 0 < d /\ 2 ^ 53 * Z.abs (n * b - a * d) <= a * d.
Proof.
  intros Ha Hb. unfold round_ratio.
  pose proof (mantissa_lower a b Ha Hb) as Hm. cbv zeta in Hm.
  set (e := ilog2_ratio a b - (precision - 1)) in *.
  pose proof (pow2_pos e) as Hup. pose proof (pow2_pos (- e)) as Hdown.
  set (up := 2 ^ Z.max 0 e) in *. set (down := 2 ^ Z.max 0 (- e)) in *.
  assert (0 < b * up) as Hbu by nia.
  pose proof (round_half_even_close (a * down) (b * up) Hbu) as Hc.
  pose proof (round_half_even_nonneg (a * down) (b * up) ltac:(nia) Hbu) as Hn.
  set (m := round_half_even (a * down) (b * up)) in *.
  split; [nia |]. split; [assumption |].
  replace (m * up * b - a * down) with (b * up * m - a * down) by ring.
  change (2 ^ 53) with (2 ^ 52 * 2).
  change (2 ^ 52) with 4503599627370496 in *.
  lia.
Qed.

End FloatFacts.

Module FormatFacts.
Import Float FloatFacts.

(** Rounding [a / b] to a float and the float to a multiple of [1 / s]
    gives the multiple nearest to [a / b] itself, as long as [s * a] stays
    below [2^52]. *)
Lemma double_rounding_close (a b s : Z) :
  0 < a -> 0 < b -> 0 < s -> s * a < 2 ^ 52 ->
  let '(n, d) := round_ratio a b in
  let t := round_half_even (n * s) d in
  0 <= n /\ 0 < d /\ 0 <= t /\ Z.abs (2 * (s * a - b * t)) <= b.
Proof.
  intros Ha Hb Hs Hsmall.
  pose proof (round_ratio_error a b Ha Hb) as He.
  destruct (round_ratio a b) as [n d]. destruct He as (Hn & Hd & He).
  pose proof (round_half_even_close (n * s) d Hd) as Hc.
  pose proof (round_half_even_nonneg (n * s) d ltac:(nia) Hd) as Ht.
  set (t := round_half_even (n * s) d) in *.
  repeat split; try assumption.
  change (2 ^ 53) with (2 * 2 ^ 52) in He.
  set (P := 2 ^ 52) in *.
  assert (0 < P) as HP by (subst P; apply Z.pow_pos_nonneg; lia).
  set (X := s * a - b * t). set (Y := a * d - b * n) in *.
  set (W := n * s - d * t) in *.
  assert (d * X = s * Y + b * W) as Hid by (subst X Y W; ring).
  assert (- (a * d) <= 2 * P * Y <= a * d) as HY.
  { replace (n * b - a * d) with (- Y) in He by (subst Y; ring). lia. }
  assert (- d <= 2 * W <= d) as HW.
  { replace (d * t - n * s) with (- W) in Hc by (subst W; ring). lia. }
  assert (- (b * d) <= 2 * (b * W) <= b * d) as HbW by nia.
  assert (- (s * (a * d)) <= 2 * P * (s * Y) <= s * (a * d)) as HsY by nia.
  assert (s * (a * d) < P * d) as Hsad by nia.
  assert (- (d * (b + 1)) < 2 * (d * X) < d * (b + 1)) as HX.
  { rewrite Hid.
    assert (- (P * d) < 2 * P * (s * Y) < P * d) as HsY' by lia.
    assert (- d < 2 * (s * Y) < d) as HsY'' by nia.
    lia. }
  assert (- (b + 1) < 2 * X < b + 1) by nia.
  lia.
Qed.

(** [n / d] on two positive ints, as a fraction. *)
Lemma int_truediv_pos (n d : Z) :
  0 < n -> 0 < d ->
  int_truediv n d = Qmake (fst (round_ratio n d)) (Z.to_pos (snd (round_ratio n d))).
Proof.
  intros Hn Hd. destruct n as [| pn | pn]; try lia. destruct d as [| pd | pd]; try lia.
  unfold int_truediv, round, Qdiv, Qmult, Qinv, inject_Z.
  cbn [Qnum Qden]. rewrite Z.mul_1_r. cbn [Pos.mul].
  destruct (round_ratio (Z.pos pn) (Z.pos pd)); reflexivity.
Qed.

Lemma zero_pad_digit (d : Z) :
  0 <= d < 10 -> zero_pad 1 (Text.str d) = Text.str d.
Proof.
  intros H.
  assert (d = 0 \/ d = 1 \/ d = 2 \/ d = 3 \/ d = 4 \/ d = 5 \/ d = 6
          \/ d = 7 \/ d = 8 \/ d = 9) as C by lia.
  repeat (destruct C as [-> | C]; [reflexivity |]). subst d. reflexivity.
Qed.

(** [f"{n / d:.1f}"] for ints in a count's range. *)
Lemma format_one_decimal (n d : Z) :
  0 < n -> 0 < d -> n < 2 ^ 48 ->
  exists t,
    0 <= t /\
    Z.abs (2 * (10 * n - d * t)) <= d /\
    format_fixed 1 (int_truediv n d)
    = (Text.str (t / 10) ++ "." ++ Text.str (t mod 10))%string.
Proof.
  intros Hn Hd Hsmall.
  pose proof (double_rounding_close n d 10 Hn Hd ltac:(lia)) as H.
  change (2 ^ 48) with 281474976710656 in Hsmall.
  change (2 ^ 52) with 4503599627370496 in H.
  specialize (H ltac:(lia)).
  rewrite int_truediv_pos by assumption.
  destruct (round_ratio n d) as [x y]. destruct H as (Hx & Hy & Ht & Hc).
  exists (round_half_even (x * 10) y). split; [assumption |]. split; [assumption |].
  unfold format_fixed. cbn [fst snd Qnum Qden].
  rewrite Z2Pos.id by assumption. rewrite Z.abs_eq by assumption.
  change (10 ^ Z.of_nat 1) with 10.
  destruct (Z.ltb_spec x 0); [lia |].
  rewrite zero_pad_digit by (apply Z.mod_pos_bound; lia).
  reflexivity.
Qed.

(** [f"{n / d:.0f}"] for ints in a count's range. *)
Lemma format_no_decimal (n d : Z) :
  0 < n -> 0 < d -> n < 2 ^ 48 ->
  exists k,
    0 <= k /\
    Z.abs (2 * (n - d * k)) <= d /\
    format_fixed 0 (int_truediv n d) = Text.str k.
Proof.
  intros Hn Hd Hsmall.
  pose proof (double_rounding_close n d 1 Hn Hd ltac:(lia)) as H.
  change (2 ^ 48) with 281474976710656 in Hsmall.
  change (2 ^ 52) with 4503599627370496 in H.
  specialize (H ltac:(lia)).
  rewrite int_truediv_pos by assumption.
  destruct (round_ratio n d) as [x y]. destruct H as (Hx & Hy & Ht & Hc).
  exists (round_half_even (x * 1) y). split; [assumption |].
  split; [replace (n - _) with (1 * n - d * round_half_even (x * 1) y) by ring;
          assumption |].
  unfold format_fixed. cbn [fst snd Qnum Qden].
  rewrite Z2Pos.id by assumption. rewrite Z.abs_eq by assumption.
  change (10 ^ Z.of_nat 0) with 1.
  destruct (Z.ltb_spec x 0); [lia |]. reflexivity.
Qed.

End FormatFacts.

(** ** Sorting, joining and selecting rows *)

Module FrameFacts.
Import Frame.

Section Ordering.
Context {A : Type} (before : A -> A -> bool).

Lemma insert_perm (x : A) (l : list A) :
  Permutation (insert before x l) (x :: l).
Proof.
  induction l as [| y l IH]; cbn; [reflexivity |].
  destruct (before x y); [reflexivity |].
  rewrite IH. apply perm_swap.
Qed.

Lemma stable_sort_perm (l : list A) : Permutation (stable_sort before l) l.
Proof.
  induction l as [| x l IH]; cbn; [constructor |].
  rewrite insert_perm. constructor. exact IH.
Qed.

Lemma stable_sort_In (x : A) (l : list A) :
  In x (stable_sort before l) <-> In x l.
Proof.
  split; apply Permutation_in;
    [| symmetry]; apply stable_sort_perm.
Qed.

Hypothesis before_total : forall x y, before x y = true \/ before y x = true.
Hypothesis before_trans :
  forall x y z, before x y = true -> before y z = true -> before x z = true.

Let ordered (x y : A) : Prop := before x y = true.

Lemma insert_sorted (x : A) (l : list A) :
  StronglySorted ordered l -> StronglySorted ordered (insert before x l).
Proof.
  induction 1 as [| y l Hl IH Hy]; cbn.
  - repeat constructor.
  - destruct (before x y) eqn:E.
    + constructor; [constructor; assumption |].
      constructor; [exact E |].
      eapply Forall_impl; [| exact Hy].
      intros z Hz. exact (before_trans _ _ _ E Hz).
    + constructor; [exact IH |].
      assert (before y x = true) as Eyx
        by (destruct (before_total x y); congruence).
      eapply Permutation_Forall; [symmetry; apply insert_perm |].
      constructor; assumption.
Qed.

Lemma stable_sort_sorted (l : list A) :
  StronglySorted ordered (stable_sort before l).
Proof.
  induction l as [| x l IH]; cbn; [constructor |].
  apply insert_sorted. exact IH.
Qed.
End Ordering.

Lemma StronglySorted_weaken {A} (R R' : A -> A -> Prop) (l : list A) :
  (forall x y, R x y -> R' x y) -> StronglySorted R l -> StronglySorted R' l.
Proof.
  intros HR. induction 1 as [| x l Hl IH Hx]; constructor; [exact IH |].
  eapply Forall_impl; [| exact Hx]. intros y. apply HR.
Qed.

Lemma sort_values_asc_sorted {A} (key : A -> Z) (l : list A) :
  StronglySorted (fun x y => key x <= key y) (sort_values_asc key l).
Proof.
  apply StronglySorted_weaken with (R := fun x y => (key x <=? key y) = true).
  - intros x y H. apply Z.leb_le. exact H.
  - apply stable_sort_sorted.
    + intros x y. rewrite !Z.leb_le. lia.
    + intros x y z. rewrite !Z.leb_le. lia.
Qed.

Lemma sort_values_desc_sorted {A} (key : A -> Z) (l : list A) :
  StronglySorted (fun x y => key y <= key x) (sort_values_desc key l).
Proof.
  apply StronglySorted_weaken with (R := fun x y => (key y <=? key x) = true).
  - intros x y H. apply Z.leb_le. exact H.
  - apply stable_sort_sorted.
    + intros x y. rewrite !Z.leb_le. lia.
    + intros x y z. rewrite !Z.leb_le. lia.
Qed.

(** A row of a left join comes from a left row and either a right row
    with the same key or, when the right table has none, no row. *)
Lemma merge_left_In {A B C} (kl : A -> Z) (kr : B -> Z)
    (row : A -> option B -> C) (left : list A) (right : list B) (c : C) :
  In c (merge_left kl kr row left right) <->
  exists a, In a left /\
    ((exists b, In b right /\ kr b = kl a /\ c = row a (Some b))
     \/ ((forall b, In b right -> kr b <> kl a) /\ c = row a None)).
Proof.
  unfold merge_left. rewrite in_flat_map.
  split; intros (a & Ha & H); exists a; (split; [exact Ha |]).
  - destruct (filter (fun b => kr b =? kl a) right) as [| b0 bs] eqn:E.
    + destruct H as [<- | []]. right. split; [| reflexivity].
      intros b Hb Hk.
      assert (In b (filter (fun b => kr b =? kl a) right)) as Hin
        by (apply filter_In; split; [exact Hb | apply Z.eqb_eq; exact Hk]).
      rewrite E in Hin. exact Hin.
    + rewrite <- E in H. apply in_map_iff in H. destruct H as (b & <- & Hb).
      apply filter_In in Hb. destruct Hb as [Hb Hk]. apply Z.eqb_eq in Hk.
      left. exists b. auto.
  - destruct H as [(b & Hb & Hk & ->) | (Hnone & ->)].
    + assert (In b (filter (fun b => kr b =? kl a) right)) as Hin
        by (apply filter_In; split; [exact Hb | apply Z.eqb_eq; exact Hk]).
      destruct (filter (fun b => kr b =? kl a) right) as [| b0 bs] eqn:E;
        [destruct Hin |].
      apply (in_map (fun b' => row a (Some b'))). exact Hin.
    + destruct (filter (fun b => kr b =? kl a) right) as [| b0 bs] eqn:E;
        [left; reflexivity |].
      exfalso.
      assert (In b0 (filter (fun b => kr b =? kl a) right)) as Hin
        by (rewrite E; left; reflexivity).
      apply filter_In in Hin. destruct Hin as [Hb Hk]. apply Z.eqb_eq in Hk.
      exact (Hnone b0 Hb Hk).
Qed.

End FrameFacts.

(** ** The change calculator of main.py *)

Module MainFacts.
Import Main FrameFacts.

Lemma arrow_up (x : option Z) :
  String.eqb (arrow_of x) "up" = true <-> exists d, x = Some d /\ 0 < d.
Proof.
  destruct x as [d |]; cbn.
  - destruct (Z.ltb_spec 0 d); [| destruct (Z.ltb_spec d 0)]; cbn;
      split; try discriminate; try (intros (d' & [= <-] & ?); lia).
    intros _. exists d. split; [reflexivity | assumption].
  - split; [discriminate | intros (d & [=] & _)].
Qed.

Lemma arrow_down (x : option Z) :
  String.eqb (arrow_of x) "down" = true <-> exists d, x = Some d /\ d < 0.
Proof.
  destruct x as [d |]; cbn.
  - destruct (Z.ltb_spec 0 d); [| destruct (Z.ltb_spec d 0)]; cbn;
      split; try discriminate; try (intros (d' & [= <-] & ?); lia).
    intros _. exists d. split; [reflexivity | assumption].
  - split; [discriminate | intros (d & [=] & _)].
Qed.

Lemma main_in_rises players y (r : merged_row) :
  In r (map row (snd (price_tables players y))) <->
  In r (merged_df players y) /\ exists d, daily_change r = Some d /\ 0 < d.
Proof.
  unfold price_tables, Frame.sort_values_asc. cbv zeta. cbn [snd].
  rewrite in_map_iff. split.
  - intros (cr & <- & H). apply stable_sort_In in H.
    apply filter_In in H. destruct H as [H Hup].
    apply in_map_iff in H. destruct H as (r & <- & Hr).
    apply filter_In in Hr. destruct Hr as [Hr _]. cbn in *.
    split; [exact Hr | apply arrow_up; exact Hup].
  - intros (Hr & d & Hd & Hpos).
    exists {| row := r; arrow := arrow_of (daily_change r) |}.
    split; [reflexivity |]. apply stable_sort_In. apply filter_In. split.
    + apply in_map_iff. exists r. split; [reflexivity |].
      apply filter_In. split; [exact Hr |].
      unfold changed. rewrite Hd. destruct (Z.eqb_spec d 0); [lia | reflexivity].
    + cbn. apply arrow_up. exists d. auto.
Qed.

Lemma main_in_falls players y (r : merged_row) :
  In r (map row (fst (price_tables players y))) <->
  In r (merged_df players y) /\ exists d, daily_change r = Some d /\ d < 0.
Proof.
  unfold price_tables, Frame.sort_values_asc. cbv zeta. cbn [fst].
  rewrite in_map_iff. split.
  - intros (cr & <- & H). apply stable_sort_In in H.
    apply filter_In in H. destruct H as [H Hdown].
    apply in_map_iff in H. destruct H as (r & <- & Hr).
    apply filter_In in Hr. destruct Hr as [Hr _]. cbn in *.
    split; [exact Hr | apply arrow_down; exact Hdown].
  - intros (Hr & d & Hd & Hneg).
    exists {| row := r; arrow := arrow_of (daily_change r) |}.
    split; [reflexivity |]. apply stable_sort_In. apply filter_In. split.
    + apply in_map_iff. exists r. split; [reflexivity |].
      apply filter_In. split; [exact Hr |].
      unfold changed. rewrite Hd. destruct (Z.eqb_spec d 0); [lia | reflexivity].
    + cbn. apply arrow_down. exists d. auto.
Qed.

(** A merged row with a price change recorded has a partner in
    yesterday's table. *)
Lemma main_change_has_partner players y (r : merged_row) (d : Z) :
  In r (merged_df players y) -> daily_change r = Some d ->
  exists b, In b (Api.y_rows y) /\ Api.y_id b = id r.
Proof.
  intros Hr Hd. unfold merged_df in Hr. apply merge_left_In in Hr.
  destruct Hr as (p & _ & [(b & Hb & Hk & ->) | (_ & ->)]).
  - exists b. split; [exact Hb | exact Hk].
  - discriminate Hd.
Qed.

Lemma main_pair_is_merged players y (p : Api.element) (b : Api.yesterday_row) :
  In p players -> In b (Api.y_rows y) -> Api.y_id b = Api.id p ->
  In (merge_row p (Some b)) (merged_df players y).
Proof.
  intros Hp Hb Hk. unfold merged_df. apply merge_left_In. exists p. split; [exact Hp |].
  left. exists b. auto.
Qed.

End MainFacts.

(** ** The change calculator of send_update.py *)

Module SendUpdateFacts.
Import SendUpdate FrameFacts.

Lemma update_in_rises players y (r : merged_row) :
  In r (fst (price_tables players y)) <->
  In r (merged_df players y) /\ exists d, daily_change r = Some d /\ 0 < d.
Proof.
  unfold price_tables, Frame.sort_values_desc. cbv zeta. cbn [fst].
  rewrite stable_sort_In, !filter_In. unfold risen, changed.
  destruct (daily_change r) as [d |].
  - destruct (Z.ltb_spec 0 d), (Z.eqb_spec d 0); cbn; split;
      try (intros [[? ?] ?]; discriminate);
      try (intros [? (d' & [= <-] & ?)]; lia).
    intros [[Hr _] _]. split; [exact Hr | exists d; auto].
    intros [Hr _]. auto.
  - split; [intros [_ ?]; discriminate | intros [_ (d & [=] & _)]].
Qed.

Lemma update_in_falls players y (r : merged_row) :
  In r (snd (price_tables players y)) <->
  In r (merged_df players y) /\ exists d, daily_change r = Some d /\ d < 0.
Proof.
  unfold price_tables, Frame.sort_values_desc. cbv zeta. cbn [snd].
  rewrite stable_sort_In, !filter_In. unfold fallen, changed.
  destruct (daily_change r) as [d |].
  - destruct (Z.ltb_spec d 0), (Z.eqb_spec d 0); cbn; split;
      try (intros [[? ?] ?]; discriminate);
      try (intros [? (d' & [= <-] & ?)]; lia).
    intros [[Hr _] _]. split; [exact Hr | exists d; auto].
    intros [Hr _]. auto.
  - split; [intros [_ ?]; discriminate | intros [_ (d & [=] & _)]].
Qed.

Lemma update_change_has_partner players y (r : merged_row) (d : Z) :
  In r (merged_df players y) -> daily_change r = Some d ->
  exists b, In b (Api.y_rows y) /\ Api.y_id b = id r.
Proof.
  intros Hr Hd. unfold merged_df in Hr. apply merge_left_In in Hr.
  destruct Hr as (p & _ & [(b & Hb & Hk & ->) | (_ & ->)]).
  - exists b. split; [exact Hb | exact Hk].
  - discriminate Hd.
Qed.

Lemma update_pair_is_merged players y (p : Api.element) (b : Api.yesterday_row) :
  In p players -> In b (Api.y_rows y) -> Api.y_id b = Api.id p ->
  In (merge_row p (Some b)) (merged_df players y).
Proof.
  intros Hp Hb Hk. unfold merged_df. apply merge_left_In. exists p. split; [exact Hp |].
  left. exists b. auto.
Qed.

End SendUpdateFacts.

(** ** Text search *)

Module TextFacts.
Import Text.

Lemma prefix_app (n s : string) : prefix n (n ++ s) = true.
Proof.
  induction n as [| c n IH]; cbn; [destruct s; reflexivity |].
  destruct (ascii_dec c c); [exact IH | contradiction].
Qed.

Lemma contains_unfold (n h : string) :
  contains n h
  = if prefix n h then true
    else match h with
         | EmptyString => false
         | String _ rest => contains n rest
         end.
Proof. destruct h; reflexivity. Qed.

Lemma contains_app (a n b : string) : contains n (a ++ n ++ b) = true.
Proof.
  induction a as [| c a IH].
  - cbn [String.append]. rewrite contains_unfold, prefix_app. reflexivity.
  - cbn [String.append]. rewrite contains_unfold.
    destruct (prefix n (String c (a ++ n ++ b))); [reflexivity | exact IH].
Qed.

Lemma append_empty_r (s : string) : (s ++ EmptyString)%string = s.
Proof. induction s as [| c s IH]; cbn; [| rewrite IH]; reflexivity. Qed.

Lemma append_assoc (a b c : string) :
  ((a ++ b) ++ c)%string = (a ++ (b ++ c))%string.
Proof. induction a as [| x a IH]; cbn; [| rewrite IH]; reflexivity. Qed.

Lemma contains_suffix (a n : string) : contains n (a ++ n) = true.
Proof.
  rewrite <- (append_empty_r n) at 2. apply contains_app.
Qed.

End TextFacts.

(** * The claims *)


(** C1.  Within the fallen list and within the risen list of the change
    calculator, an entry never comes before one with a lower current price.
    [main.py] sorts both lists that way for every pair of tables;
    [send_update.py] sorts them the other way round: on two players who fell
    to 4.5 and 6.0 its fallen list shows 6.0 first. *)
Theorem price_order_ascending_in_main_descending_in_send_update :
  (forall players y,
      ascending (fun r => Main.now_cost (Main.row r))
                (fst (Main.price_tables players y))
      /\ ascending (fun r => Main.now_cost (Main.row r))
                   (snd (Main.price_tables players y)))
  /\ (forall players y,
        StronglySorted
          (fun a b => SendUpdate.now_cost b <= SendUpdate.now_cost a)
          (fst (SendUpdate.price_tables players y))
        /\ StronglySorted
             (fun a b => SendUpdate.now_cost b <= SendUpdate.now_cost a)
             (snd (SendUpdate.price_tables players y)))
  /\ map (fun r => Main.now_cost (Main.row r))
         (fst (Main.price_tables Sample.two_fallers Sample.two_fallers_yesterday))
     = [45; 60]
  /\ map SendUpdate.now_cost
         (snd (SendUpdate.price_tables Sample.two_fallers
                                       Sample.two_fallers_yesterday))
     = [60; 45]
  /\ ~ ascending SendUpdate.now_cost
         (snd (SendUpdate.price_tables Sample.two_fallers
                                       Sample.two_fallers_yesterday)).
Proof.
  split; [| split; [| split; [| split]]].
  - intros players y. unfold ascending, Main.price_tables. cbv zeta. cbn [fst snd].
    split; apply FrameFacts.sort_values_asc_sorted.
  - intros players y. unfold SendUpdate.price_tables. cbv zeta. cbn [fst snd].
    split; apply (FrameFacts.sort_values_desc_sorted SendUpdate.now_cost).
  - vm_compute. reflexivity.
  - vm_compute. reflexivity.
  - unfold ascending. intros H.
    assert (forall l, StronglySorted (fun a b => SendUpdate.now_cost a <= SendUpdate.now_cost b) l ->
                      map SendUpdate.now_cost l = [60; 45] -> False) as K.
    { intros l Hl. destruct Hl as [| a l Hl Ha]; [discriminate |].
      destruct l as [| b l]; [discriminate |].
      intros [= Ea Eb _]. apply Forall_inv in Ha. lia. }
    apply (K _ H). vm_compute. reflexivity.
Qed.

(** C2.  On an empty collection the formatter's text has the placeholder
    "None" after the header.  [send_update.py] returns the header followed
    by "None" for every change type; [main.py] returns the header and the
    column titles followed by an empty body, with no "None" in it. *)
Theorem empty_collection_placeholder_in_send_update_only :
  (forall change_type,
      SendUpdate.format_price_changes [] change_type
      = ((change_type ++ " "
           ++ (if String.eqb change_type "Price Falls" then "🔽" else "🔼")
           ++ Text.newline ++ Text.newline) ++ "None")%string
      /\ Text.contains "None" (SendUpdate.format_price_changes [] change_type) = true)
  /\ Main.format_price_changes [] "Price Falls"
     = ("Price Falls 🔽" ++ Text.newline ++ Text.newline
         ++ "Player          New Price     Old Price" ++ Text.newline)%string
  /\ Text.contains "None" (Main.format_price_changes [] "Price Falls") = false
  /\ Main.format_price_changes [] "Price Rises"
     = ("Price Rises 🔼" ++ Text.newline ++ Text.newline
         ++ "Player          New Price     Old Price" ++ Text.newline)%string
  /\ Text.contains "None" (Main.format_price_changes [] "Price Rises") = false.
Proof.
  split; [| repeat split; vm_compute; reflexivity].
  intros change_type. split; [reflexivity |].
  unfold SendUpdate.format_price_changes. apply TextFacts.contains_suffix.
Qed.

(** One pair at a time.  For a player of the current table and a row of
    yesterday's table with the same id, the change recorded on their merged
    row is the current price minus yesterday's; the merged row is in the
    risen list exactly when that difference is positive, in the fallen list
    exactly when it is negative, and in neither list when it is zero.  This
    holds in [main.py] and in [send_update.py]. *)
Theorem delta_classifies_pair
    (players : list Api.element) (y : Api.yesterday_frame)
    (p : Api.element) (b : Api.yesterday_row) :
  In p players -> In b (Api.y_rows y) -> Api.y_id b = Api.id p ->
  let delta := Api.now_cost p - Api.y_now_cost b in
  (let r := Main.merge_row p (Some b) in
   let falls := map Main.row (fst (Main.price_tables players y)) in
   let rises := map Main.row (snd (Main.price_tables players y)) in
   Main.daily_change r = Some delta
   /\ (In r rises <-> 0 < delta)
   /\ (In r falls <-> delta < 0)
   /\ (delta = 0 -> ~ In r rises /\ ~ In r falls)
   /\ ~ (In r rises /\ In r falls))
  /\
  (let r := SendUpdate.merge_row p (Some b) in
   let rises := fst (SendUpdate.price_tables players y) in
   let falls := snd (SendUpdate.price_tables players y) in
   SendUpdate.daily_change r = Some delta
   /\ (In r rises <-> 0 < delta)
   /\ (In r falls <-> delta < 0)
   /\ (delta = 0 -> ~ In r rises /\ ~ In r falls)
   /\ ~ (In r rises /\ In r falls)).
Proof.
  intros Hp Hb Hk delta. split.
  - intros r falls rises.
    pose proof (MainFacts.main_pair_is_merged players y p b Hp Hb Hk) as Hr.
    assert (Main.daily_change r = Some delta) as Hd by reflexivity.
    assert (In r rises <-> 0 < delta) as Hup.
    { subst rises. rewrite MainFacts.main_in_rises. split.
      - intros (_ & d & Hd' & Hpos). fold r in Hd'. congruence.
      - intros Hpos. split; [exact Hr | exists delta; auto]. }
    assert (In r falls <-> delta < 0) as Hdown.
    { subst falls. rewrite MainFacts.main_in_falls. split.
      - intros (_ & d & Hd' & Hneg). fold r in Hd'. congruence.
      - intros Hneg. split; [exact Hr | exists delta; auto]. }
    repeat split; try tauto; try (rewrite ?Hup, ?Hdown; lia).
  - intros r rises falls.
    pose proof (SendUpdateFacts.update_pair_is_merged players y p b Hp Hb Hk) as Hr.
    assert (SendUpdate.daily_change r = Some delta) as Hd by reflexivity.
    assert (In r rises <-> 0 < delta) as Hup.
    { subst rises. rewrite SendUpdateFacts.update_in_rises. split.
      - intros (_ & d & Hd' & Hpos). fold r in Hd'. congruence.
      - intros Hpos. split; [exact Hr | exists delta; auto]. }
    assert (In r falls <-> delta < 0) as Hdown.
    { subst falls. rewrite SendUpdateFacts.update_in_falls. split.
      - intros (_ & d & Hd' & Hneg). fold r in Hd'. congruence.
      - intros Hneg. split; [exact Hr | exists delta; auto]. }
    repeat split; try tauto; try (rewrite ?Hup, ?Hdown; lia).
Qed.

Lemma delta_classifies_pair_witness :
  let players := Sample.one_riser in
  let y := Sample.one_riser_yesterday in
  let p := Sample.player 1 "Palmer" 55 0 0 None in
  let b := {| Api.y_id := 1; Api.y_now_cost := 50 |} in
  (In p players /\ In b (Api.y_rows y) /\ Api.y_id b = Api.id p)
  /\ Main.daily_change (Main.merge_row p (Some b)) = Some 5
  /\ In (Main.merge_row p (Some b))
        (map Main.row (snd (Main.price_tables players y)))
  /\ In (SendUpdate.merge_row p (Some b))
        (fst (SendUpdate.price_tables players y)).
Proof.
  intros players y p b.
  assert (In p players) as Hp by (left; reflexivity).
  assert (In b (Api.y_rows y)) as Hb by (left; reflexivity).
  assert (Api.y_id b = Api.id p) as Hk by reflexivity.
  destruct (delta_classifies_pair players y p b Hp Hb Hk)
    as [(Hd & Hup & _) (_ & Hup' & _)].
  split; [auto |]. split; [exact Hd |].
  split; [apply Hup | apply Hup']; reflexivity.
Defined.

(** C5.  A player whose id has no row in yesterday's table is in neither
    the risen nor the fallen list, in [main.py] and in [send_update.py]. *)
Theorem unmatched_player_not_classified
    (players : list Api.element) (y : Api.yesterday_frame) (k : Z) :
  (forall b, In b (Api.y_rows y) -> Api.y_id b <> k) ->
  (forall r, In r (fst (Main.price_tables players y)) -> Main.id (Main.row r) <> k)
  /\ (forall r, In r (snd (Main.price_tables players y)) -> Main.id (Main.row r) <> k)
  /\ (forall r, In r (fst (SendUpdate.price_tables players y)) -> SendUpdate.id r <> k)
  /\ (forall r, In r (snd (SendUpdate.price_tables players y)) -> SendUpdate.id r <> k).
Proof.
  intros Hnone. repeat split; intros r Hr Hid.
  - apply (in_map Main.row) in Hr. apply MainFacts.main_in_falls in Hr.
    destruct Hr as (Hm & d & Hd & _).
    destruct (MainFacts.main_change_has_partner players y _ d Hm Hd) as (b & Hb & Hk).
    apply (Hnone b Hb). congruence.
  - apply (in_map Main.row) in Hr. apply MainFacts.main_in_rises in Hr.
    destruct Hr as (Hm & d & Hd & _).
    destruct (MainFacts.main_change_has_partner players y _ d Hm Hd) as (b & Hb & Hk).
    apply (Hnone b Hb). congruence.
  - apply SendUpdateFacts.update_in_rises in Hr.
    destruct Hr as (Hm & d & Hd & _).
    destruct (SendUpdateFacts.update_change_has_partner players y _ d Hm Hd)
      as (b & Hb & Hk).
    apply (Hnone b Hb). congruence.
  - apply SendUpdateFacts.update_in_falls in Hr.
    destruct Hr as (Hm & d & Hd & _).
    destruct (SendUpdateFacts.update_change_has_partner players y _ d Hm Hd)
      as (b & Hb & Hk).
    apply (Hnone b Hb). congruence.
Qed.

Lemma unmatched_player_not_classified_witness :
  let players := Sample.two_fallers in
  let y := Sample.yesterday [(2, 65)] in
  (forall b, In b (Api.y_rows y) -> Api.y_id b <> 1)
  /\ (forall r, In r (fst (Main.price_tables players y)) -> Main.id (Main.row r) <> 1)
  /\ (forall r, In r (snd (SendUpdate.price_tables players y)) -> SendUpdate.id r <> 1).
Proof.
  intros players y.
  assert (forall b, In b (Api.y_rows y) -> Api.y_id b <> 1) as Hnone.
  { intros b [<- | []]. cbn. lia. }
  destruct (unmatched_player_not_classified players y 1 Hnone) as (H1 & _ & _ & H4).
  split; [exact Hnone |]. split; [exact H1 | exact H4].
Defined.

(** C9.  In a run of [main.py] in which the player table is fetched and
    the fetch or parse of yesterday's file raises, the baseline loader
    returns the empty table and prints the cause instead of raising, the
    pipeline returns the warning text paired with the empty text, and the
    command handler and the timed push each hand exactly one text to the
    messaging platform: that warning. *)
Theorem baseline_failure_sends_only_warning
    (env : Run.environment) (w : Run.world)
    (players : list Api.element) (cause : string) (chat : Z) :
  Run.fpl_api env = Returned players ->
  Run.github_csv env = Raised cause ->
  let logged :=
    {| Run.outbox := Run.outbox w;
       Run.stdout :=
         app (Run.stdout w) [("Error loading yesterday's costs: " ++ cause)%string] |} in
  Main.load_yesterday_costs env w = (Returned Api.empty_frame, logged)
  /\ Api.empty Api.empty_frame = true
  /\ Main.get_price_changes env w
     = (Returned ("Warning: No 'yesterday_costs.csv' found.", EmptyString), logged)
  /\ Run.outbox (snd (Main.handle_price_changes env chat w))
     = app (Run.outbox w) [(chat, "Warning: No 'yesterday_costs.csv' found.")]
  /\ Run.outbox (snd (Main.send_price_update env w))
     = app (Run.outbox w)
           [(Main.CHAT_ID, "Warning: No 'yesterday_costs.csv' found.")].
Proof.
  intros Hfpl Hcsv logged.
  assert (Main.load_yesterday_costs env w = (Returned Api.empty_frame, logged)) as Hload.
  { unfold Main.load_yesterday_costs, Run.try_except, Run.bind, Run.lift.
    rewrite Hcsv. reflexivity. }
  assert (Main.get_price_changes env w
          = (Returned (Main.missing_csv_warning, EmptyString), logged)) as Hget.
  { unfold Main.get_price_changes, Main.fetch_fpl_data, Run.bind at 1, Run.lift.
    rewrite Hfpl. unfold Run.bind. rewrite Hload. reflexivity. }
  split; [exact Hload |]. split; [reflexivity |]. split; [exact Hget |].
  split.
  - unfold Main.handle_price_changes, Run.bind. rewrite Hget.
    change (Text.contains "Warning:" Main.missing_csv_warning
            && String.eqb EmptyString EmptyString) with true.
    cbv iota beta. unfold Run.send_message.
    destruct (Run.telegram_rejects env chat Main.missing_csv_warning); reflexivity.
  - unfold Main.send_price_update, Run.bind. rewrite Hget.
    change (Text.contains "Warning:" Main.missing_csv_warning
            && String.eqb EmptyString EmptyString) with true.
    cbv iota beta. unfold Run.send_message.
    destruct (Run.telegram_rejects env Main.CHAT_ID Main.missing_csv_warning);
      reflexivity.
Qed.

Lemma baseline_failure_sends_only_warning_witness :
  let env :=
    {| Run.fpl_api := Returned Sample.one_riser;
       Run.github_csv := Raised "404 Client Error";
       Run.today := "2025-01-01";
       Run.telegram_rejects := fun _ _ => None |} in
  (Run.fpl_api env = Returned Sample.one_riser
   /\ Run.github_csv env = Raised "404 Client Error")
  /\ Main.get_price_changes env Sample.fresh_world
     = (Returned ("Warning: No 'yesterday_costs.csv' found.", EmptyString),
        {| Run.outbox := [];
           Run.stdout := ["Error loading yesterday's costs: 404 Client Error"] |})
  /\ Run.outbox (snd (Main.handle_price_changes env 7 Sample.fresh_world))
     = [(7, "Warning: No 'yesterday_costs.csv' found.")].
Proof.
  intros env.
  destruct (baseline_failure_sends_only_warning env Sample.fresh_world
              Sample.one_riser "404 Client Error" 7 eq_refl eq_refl)
    as (_ & _ & Hget & Hout & _).
  split; [split; reflexivity |].
  split; [exact Hget | exact Hout].
Defined.

(** ** Selecting and ranking commute with a change of row type *)

Module SelectFacts.
Import Frame.

Lemma filter_map {A B} (f : B -> bool) (g : A -> B) (l : list A) :
  filter f (map g l) = map g (filter (fun a => f (g a)) l).
Proof.
  induction l as [| a l IH]; cbn; [reflexivity |].
  destruct (f (g a)); cbn; rewrite IH; reflexivity.
Qed.

Lemma filter_filter {A} (f g : A -> bool) (l : list A) :
  filter g (filter f l) = filter (fun a => f a && g a) l.
Proof.
  induction l as [| a l IH]; cbn; [reflexivity |].
  destruct (f a); cbn; [destruct (g a) |]; rewrite IH; reflexivity.
Qed.

Lemma insert_map {A B} (before : B -> B -> bool) (g : A -> B) (a : A)
    (l : list A) :
  insert before (g a) (map g l)
  = map g (insert (fun x y => before (g x) (g y)) a l).
Proof.
  induction l as [| b l IH]; cbn; [reflexivity |].
  destruct (before (g a) (g b)); cbn; [| rewrite IH]; reflexivity.
Qed.

Lemma stable_sort_map {A B} (before : B -> B -> bool) (g : A -> B)
    (l : list A) :
  stable_sort before (map g l)
  = map g (stable_sort (fun x y => before (g x) (g y)) l).
Proof.
  unfold stable_sort.
  induction l as [| a l IH]; cbn; [reflexivity |].
  rewrite IH. apply insert_map.
Qed.

Lemma nlargest_map {A B} (n : nat) (key : B -> Q) (g : A -> B) (l : list A) :
  nlargest n key (map g l) = map g (nlargest n (fun a => key (g a)) l).
Proof.
  unfold nlargest. rewrite stable_sort_map. apply firstn_map.
Qed.

Lemma head_In {A} (n : nat) (l : list A) (x : A) : In x (firstn n l) -> In x l.
Proof.
  intros H. rewrite <- (firstn_skipn n l). apply in_or_app. left. exact H.
Qed.

Lemma nlargest_In {A} (n : nat) (key : A -> Q) (l : list A) (x : A) :
  In x (nlargest n key l) -> In x l.
Proof.
  unfold nlargest. intros H. apply head_In in H.
  eapply FrameFacts.stable_sort_In. exact H.
Qed.

End SelectFacts.

(** ** The pressure estimator *)

Module PredictionFacts.
Import SendPricePredictions SelectFacts.

(** The lists of [predictions], on the provider's rows. *)
Lemma predictions_floor_last teams players :
  predictions teams players
  = (map (Claimed.row_of teams) (Claimed.rising_floor_last players),
     map (Claimed.row_of teams) (Claimed.falling_floor_last players)).
Proof.
  unfold predictions, rank, pressure_columns, Frame.head,
    Claimed.rising_floor_last, Claimed.falling_floor_last.
  cbv zeta. rewrite !map_map.
  change (fun x => analysis_of (calculate_row (with_team teams x)))
    with (Claimed.row_of teams).
  rewrite !filter_map, !filter_filter, !nlargest_map, !filter_map, !firstn_map.
  reflexivity.
Qed.

(** What [get_price_predictions] does with a fetched table: it raises on
    the empty one and returns the two lists on any other. *)
Lemma get_price_predictions_fetched teams players :
  get_price_predictions (Returned players) teams
  = match players with
    | [] => Raised (key_error "selected_by_percent")
    | _ =>
        Returned
          (Some (fst (predictions teams players)),
           Some (snd (predictions teams players)),
           None)
    end.
Proof.
  destruct players as [| p players]; [reflexivity |].
  unfold get_price_predictions, calculate_price_pressure. cbn [map].
  change (rank (pressure_columns (with_team teams p :: map (with_team teams) players)))
    with (predictions teams (p :: players)).
  destruct (predictions teams (p :: players)); reflexivity.
Qed.

Lemma get_price_predictions_floor_last teams players :
  players <> [] ->
  get_price_predictions (Returned players) teams
  = Returned
      (Some (map (Claimed.row_of teams) (Claimed.rising_floor_last players)),
       Some (map (Claimed.row_of teams) (Claimed.falling_floor_last players)),
       None).
Proof.
  intros Hne. rewrite get_price_predictions_fetched.
  destruct players; [contradiction |].
  rewrite predictions_floor_last. reflexivity.
Qed.



End PredictionFacts.

Module FloorFacts.
Import SendPricePredictions SelectFacts.

Lemma rising_floor_last_In (players : list Api.element) (p : Api.element) :
  In p (Claimed.rising_floor_last players) ->
  In p players
  /\ (Claimed.meaningful_ownership_le p /\ 0 < Claimed.net p)
  /\ 5000 < Api.transfers_in_event p.
Proof.
  unfold Claimed.rising_floor_last. intros H.
  apply head_In in H. apply filter_In in H. destruct H as [H Hfloor].
  apply nlargest_In in H. apply filter_In in H. destruct H as [H Hsel].
  apply andb_true_iff in Hsel. destruct Hsel as [Hown Hnet].
  split; [exact H |]. split; [split |].
  - apply Qle_bool_iff. exact Hown.
  - apply Z.ltb_lt. exact Hnet.
  - apply Z.ltb_lt. exact Hfloor.
Qed.

Lemma falling_floor_last_In (players : list Api.element) (p : Api.element) :
  In p (Claimed.falling_floor_last players) ->
  In p players
  /\ (Claimed.meaningful_ownership_le p /\ Claimed.net p < 0)
  /\ 5000 < Api.transfers_out_event p.
Proof.
  unfold Claimed.falling_floor_last. intros H.
  apply head_In in H. apply filter_In in H. destruct H as [H Hfloor].
  apply nlargest_In in H. apply filter_In in H. destruct H as [H Hsel].
  apply andb_true_iff in Hsel. destruct Hsel as [Hown Hnet].
  split; [exact H |]. split; [split |].
  - apply Qle_bool_iff. exact Hown.
  - apply Z.ltb_lt. exact Hnet.
  - apply Z.ltb_lt. exact Hfloor.
Qed.

End FloorFacts.

(** C3 as stated fails.  With ten players owned by 0.1% who each have 5000
    transfers in, and an eleventh owned by 50% with 6000 transfers in, the
    script's rising list is empty: the ten largest pressures are the ten
    quiet players, and the activity floor then removes them all.  Filtering
    on the three conditions first would list the eleventh player. *)
Lemma filter_first_reading_refuted :
  SendPricePredictions.get_price_predictions (Returned Sample.crowd) Sample.no_teams
  = Returned (Some [], Some [], None)
  /\ map SendPricePredictions.a_web_name
         (map (Claimed.row_of Sample.no_teams)
              (Claimed.rising_filter_first Sample.crowd))
     = ["Busy"]
  /\ SendPricePredictions.get_price_predictions (Returned Sample.crowd) Sample.no_teams
     <> Returned
          (Some (map (Claimed.row_of Sample.no_teams)
                     (Claimed.rising_filter_first Sample.crowd)),
           Some (map (Claimed.row_of Sample.no_teams)
                     (Claimed.falling_filter_first Sample.crowd)),
           None).
Proof.
  split; [vm_compute; reflexivity |].
  split; [vm_compute; reflexivity |].
  vm_compute. discriminate.
Qed.

(** C3, amended.  For every player table that is not empty, the final
    rising list is the first 5 of those rows, among the 10 largest by
    rising_pressure of the players with ownership >= 0.1% and
    net_transfers > 0, that have transfers_in > 5000: the ownership and
    net-transfer conditions come before the ranking and the cut to 10, the
    transfers_in condition after it.  The falling list mirrors this with
    falling_pressure, net_transfers < 0 and transfers_out.  On the empty
    table the function returns no list: it raises KeyError. *)
Theorem predictions_rank_then_floor
    (teams : outcome (list (Z * string))) (players : list Api.element) :
  players <> [] ->
  SendPricePredictions.get_price_predictions (Returned players) teams
  = Returned
      (Some (map (Claimed.row_of teams) (Claimed.rising_floor_last players)),
       Some (map (Claimed.row_of teams) (Claimed.falling_floor_last players)),
       None)
  /\ SendPricePredictions.get_price_predictions (Returned []) teams
     = Raised (key_error "selected_by_percent").
Proof.
  intros Hne. split; [| reflexivity].
  apply PredictionFacts.get_price_predictions_floor_last. exact Hne.
Qed.

Lemma predictions_rank_then_floor_witness :
  [Sample.busy; Sample.busy_out] <> []
  /\ SendPricePredictions.get_price_predictions
       (Returned [Sample.busy; Sample.busy_out]) Sample.no_teams
     = Returned
         (Some [Claimed.row_of Sample.no_teams Sample.busy],
          Some [Claimed.row_of Sample.no_teams Sample.busy_out],
          None).
Proof.
  assert ([Sample.busy; Sample.busy_out] <> []) as Hne by discriminate.
  destruct (predictions_rank_then_floor Sample.no_teams
              [Sample.busy; Sample.busy_out] Hne) as [H _].
  split; [exact Hne |]. rewrite H. vm_compute. reflexivity.
Defined.

(** C6.  For every player table, each row of the final rising list that
    [get_price_predictions] returns has ownership not below 0.1% and
    transfers_in not at or below 5000, and each row of the final falling
    list has ownership not below 0.1% and transfers_out not at or below
    5000.  Every listed row is the row of a player of the table, so a
    player with ownership under 0.1%, such as 0.05%, is in neither list
    whatever the transfer counts. *)
Theorem prediction_lists_respect_floors
    (teams : outcome (list (Z * string))) (players : list Api.element)
    (rising falling : list SendPricePredictions.analysis_row) :
  SendPricePredictions.get_price_predictions (Returned players) teams
  = Returned (Some rising, Some falling, None) ->
  Forall (fun r =>
            ~ (SendPricePredictions.a_selected_by_percent r
               < SendPricePredictions.meaningful_ownership)%Q
            /\ ~ SendPricePredictions.a_transfers_in_event r <= 5000)
         rising
  /\ Forall (fun r =>
               ~ (SendPricePredictions.a_selected_by_percent r
                  < SendPricePredictions.meaningful_ownership)%Q
               /\ ~ SendPricePredictions.a_transfers_out_event r <= 5000)
            falling
  /\ Forall (fun r => exists p, In p players /\ r = Claimed.row_of teams p)
            (rising ++ falling)
  /\ Forall (fun p =>
               (Claimed.ownership p < Float.literal (1 # 10))%Q ->
               ~ In (Claimed.row_of teams p) (rising ++ falling))
            players.
Proof.
  intros Hret.
  assert (rising = map (Claimed.row_of teams) (Claimed.rising_floor_last players)
          /\ falling = map (Claimed.row_of teams) (Claimed.falling_floor_last players))
    as [-> ->].
  { destruct players as [| p0 players]; [discriminate Hret |].
    rewrite PredictionFacts.get_price_predictions_floor_last in Hret
      by discriminate.
    injection Hret as <- <-. split; reflexivity. }
  assert (forall r, In r (map (Claimed.row_of teams) (Claimed.rising_floor_last players)) ->
            (SendPricePredictions.meaningful_ownership
             <= SendPricePredictions.a_selected_by_percent r)%Q
            /\ 5000 < SendPricePredictions.a_transfers_in_event r
            /\ exists p, In p players /\ r = Claimed.row_of teams p) as Hup.
  { intros r Hr. apply in_map_iff in Hr. destruct Hr as (p & <- & Hp).
    apply FloorFacts.rising_floor_last_In in Hp.
    destruct Hp as (Hin & (Hown & _) & Hfloor).
    split; [exact Hown |]. split; [exact Hfloor |]. exists p. auto. }
  assert (forall r, In r (map (Claimed.row_of teams) (Claimed.falling_floor_last players)) ->
            (SendPricePredictions.meaningful_ownership
             <= SendPricePredictions.a_selected_by_percent r)%Q
            /\ 5000 < SendPricePredictions.a_transfers_out_event r
            /\ exists p, In p players /\ r = Claimed.row_of teams p) as Hdown.
  { intros r Hr. apply in_map_iff in Hr. destruct Hr as (p & <- & Hp).
    apply FloorFacts.falling_floor_last_In in Hp.
    destruct Hp as (Hin & (Hown & _) & Hfloor).
    split; [exact Hown |]. split; [exact Hfloor |]. exists p. auto. }
  repeat split.
  - apply Forall_forall. intros r Hr. destruct (Hup r Hr) as (Hown & Hfloor & _).
    split; [apply Qle_not_lt; exact Hown | lia].
  - apply Forall_forall. intros r Hr. destruct (Hdown r Hr) as (Hown & Hfloor & _).
    split; [apply Qle_not_lt; exact Hown | lia].
  - apply Forall_forall. intros r Hr. apply in_app_or in Hr.
    destruct Hr as [Hr | Hr]; [apply Hup in Hr | apply Hdown in Hr]; tauto.
  - apply Forall_forall. intros p _ Hlow Hr. apply in_app_or in Hr.
    assert ((SendPricePredictions.meaningful_ownership
             <= SendPricePredictions.a_selected_by_percent (Claimed.row_of teams p))%Q)
      as Hown by (destruct Hr as [Hr | Hr]; [apply Hup in Hr | apply Hdown in Hr]; tauto).
    apply (Qle_not_lt _ _ Hown). exact Hlow.
Qed.

Lemma prediction_lists_respect_floors_witness :
  let players := [Sample.busy; Sample.busy_out; Sample.quiet 3] in
  let rising := [Claimed.row_of Sample.no_teams Sample.busy] in
  let falling := [Claimed.row_of Sample.no_teams Sample.busy_out] in
  SendPricePredictions.get_price_predictions (Returned players) Sample.no_teams
  = Returned (Some rising, Some falling, None)
  /\ Forall (fun r => ~ SendPricePredictions.a_transfers_in_event r <= 5000) rising
  /\ Forall (fun r => ~ SendPricePredictions.a_transfers_out_event r <= 5000) falling.
Proof.
  intros players rising falling.
  assert (SendPricePredictions.get_price_predictions (Returned players) Sample.no_teams
          = Returned (Some rising, Some falling, None)) as Hret
    by (vm_compute; reflexivity).
  destruct (prediction_lists_respect_floors Sample.no_teams players rising falling Hret)
    as (Hup & Hdown & _).
  split; [exact Hret |]. split.
  - eapply Forall_impl; [| exact Hup]. intros r [_ H]. exact H.
  - eapply Forall_impl; [| exact Hdown]. intros r [_ H]. exact H.
Defined.


(** ** Decimal text of an integer *)

Module StrFacts.
Import Text.

Lemma uint_all_digits (d : Decimal.uint) :
  all_digits (NilEmpty.string_of_uint d) = true.
Proof. induction d; cbn; auto. Qed.

Lemma nilzero_all_digits (d : Decimal.uint) :
  all_digits (NilZero.string_of_uint d) = true.
Proof.
  destruct d; try reflexivity;
    apply (uint_all_digits (_ d)).
Qed.

Lemma str_plain (n : Z) : plain_number (str n) = true.
Proof.
  unfold str, NilZero.string_of_int.
  destruct (Z.to_int n) as [d | d].
  - pose proof (nilzero_all_digits d) as H.
    destruct (NilZero.string_of_uint d) as [| c rest] eqn:E.
    + destruct d; discriminate E.
    + unfold plain_number. destruct (Ascii.eqb_spec c "-"); [| exact H].
      subst c. cbn in H. discriminate H.
  - unfold plain_number. rewrite Ascii.eqb_refl. apply nilzero_all_digits.
Qed.

End StrFacts.

(** C7.  The count abbreviation maps 999 to "999", 1000 to "1K" and 1500000
    to "1.5M".  For a count [n] (below [2^48], about 2.8e14): from one
    million up the text is [n] over one million rounded to the nearest
    tenth, written with one decimal and the suffix "M"; from one thousand
    up to one million it is [n] over one thousand rounded to the nearest
    integer with the suffix "K"; below one thousand it is the decimal text
    of [n]. *)
Theorem format_number_abbreviates (n : Z) :
  n < 2 ^ 48 ->
  SendTransferTrends.format_number 999 = "999"
  /\ SendTransferTrends.format_number 1000 = "1K"
  /\ SendTransferTrends.format_number 1500000 = "1.5M"
  /\ (1000000 <= n ->
      exists t, 0 <= t /\ Z.abs (n - 100000 * t) <= 50000
        /\ SendTransferTrends.format_number n
           = (Text.str (t / 10) ++ "." ++ Text.str (t mod 10) ++ "M")%string)
  /\ (1000 <= n < 1000000 ->
      exists k, 0 <= k /\ Z.abs (n - 1000 * k) <= 500
        /\ SendTransferTrends.format_number n = (Text.str k ++ "K")%string)
  /\ (n < 1000 -> SendTransferTrends.format_number n = Text.str n).
Proof.
  intros Hcount.
  split; [vm_compute; reflexivity |].
  split; [vm_compute; reflexivity |].
  split; [vm_compute; reflexivity |].
  unfold SendTransferTrends.format_number.
  split; [| split].
  - intros Hn. destruct (Z.leb_spec 1000000 n); [| lia].
    destruct (FormatFacts.format_one_decimal n 1000000 ltac:(lia) ltac:(lia) Hcount)
      as (t & Ht & Hclose & Htext).
    exists t. split; [exact Ht |]. split; [lia |].
    rewrite Htext. rewrite !TextFacts.append_assoc. reflexivity.
  - intros Hn. destruct (Z.leb_spec 1000000 n); [lia |].
    destruct (Z.leb_spec 1000 n); [| lia].
    destruct (FormatFacts.format_no_decimal n 1000 ltac:(lia) ltac:(lia) Hcount)
      as (k & Hk & Hclose & Htext).
    exists k. split; [exact Hk |]. split; [lia |].
    rewrite Htext. reflexivity.
  - intros Hn. destruct (Z.leb_spec 1000000 n); [lia |].
    destruct (Z.leb_spec 1000 n); [lia |]. reflexivity.
Qed.

Lemma format_number_abbreviates_witness :
  1250000 < 2 ^ 48
  /\ SendTransferTrends.format_number 1250000 = "1.2M"
  /\ exists t, 0 <= t /\ Z.abs (1250000 - 100000 * t) <= 50000
       /\ SendTransferTrends.format_number 1250000
          = (Text.str (t / 10) ++ "." ++ Text.str (t mod 10) ++ "M")%string.
Proof.
  assert (1250000 < 2 ^ 48) as Hcount by reflexivity.
  destruct (format_number_abbreviates 1250000 Hcount) as (_ & _ & _ & Hm & _).
  split; [exact Hcount |]. split; [vm_compute; reflexivity |].
  apply Hm. lia.
Defined.

(** C10.  For every integer [n] below 1000, negative ones of any size
    included, the count abbreviation returns the decimal text of [n]:
    digits after an optional minus sign, no suffix.  The net-transfer text
    of the trends formatter is that text, with a plus sign in front when
    [n] is positive, so a negative net count is printed in full. *)
Theorem small_counts_unabbreviated (n : Z) :
  n < 1000 ->
  SendTransferTrends.format_number n = Text.str n
  /\ Text.plain_number (SendTransferTrends.format_number n) = true
  /\ SendTransferTrends.net_str n
     = ((if (0 <? n)%Z then "+" else EmptyString) ++ Text.str n)%string.
Proof.
  intros Hn.
  assert (SendTransferTrends.format_number n = Text.str n) as Hfmt.
  { unfold SendTransferTrends.format_number.
    destruct (Z.leb_spec 1000000 n); [lia |].
    destruct (Z.leb_spec 1000 n); [lia |]. reflexivity. }
  split; [exact Hfmt |]. split.
  - rewrite Hfmt. apply StrFacts.str_plain.
  - unfold SendTransferTrends.net_str. rewrite Hfmt.
    destruct (0 <? n); reflexivity.
Qed.

Lemma small_counts_unabbreviated_witness :
  -2500000 < 1000
  /\ SendTransferTrends.format_number (-2500000) = "-2500000"
  /\ SendTransferTrends.net_str (-2500000) = "-2500000".
Proof.
  assert (-2500000 < 1000) as Hn by lia.
  destruct (small_counts_unabbreviated (-2500000) Hn) as (Hfmt & _ & Hnet).
  split; [exact Hn |]. split; [exact Hfmt | exact Hnet].
Defined.

(** * Further properties of the scripts *)

(** ** Sorted lists and their prefixes *)

Module SortedFacts.

Lemma sorted_app_cross {A} (R : A -> A -> Prop) (l1 l2 : list A) :
  StronglySorted R (l1 ++ l2)%list ->
  forall x y, In x l1 -> In y l2 -> R x y.
Proof.
  induction l1 as [| a l1 IH]; cbn; intros H x y Hx Hy; [destruct Hx |].
  apply StronglySorted_inv in H. destruct H as [Hs Ha].
  destruct Hx as [<- | Hx].
  - rewrite Forall_forall in Ha. apply Ha. apply in_or_app. right. exact Hy.
  - exact (IH Hs x y Hx Hy).
Qed.

Lemma sorted_app_left {A} (R : A -> A -> Prop) (l1 l2 : list A) :
  StronglySorted R (l1 ++ l2)%list -> StronglySorted R l1.
Proof.
  induction l1 as [| a l1 IH]; cbn; intros H; [constructor |].
  apply StronglySorted_inv in H. destruct H as [Hs Ha].
  constructor; [exact (IH Hs) |].
  apply Forall_app in Ha. tauto.
Qed.

Lemma sorted_firstn {A} (R : A -> A -> Prop) (n : nat) (l : list A) :
  StronglySorted R l -> StronglySorted R (firstn n l).
Proof.
  intros H. rewrite <- (firstn_skipn n l) in H.
  exact (sorted_app_left R _ _ H).
Qed.

Lemma sorted_filter {A} (R : A -> A -> Prop) (f : A -> bool) (l : list A) :
  StronglySorted R l -> StronglySorted R (filter f l).
Proof.
  induction 1 as [| a l Hl IH Ha]; cbn; [constructor |].
  destruct (f a); [| exact IH].
  constructor; [exact IH |].
  rewrite Forall_forall in *. intros x Hx. apply filter_In in Hx. apply Ha. tauto.
Qed.

Lemma sorted_map {A B} (R : B -> B -> Prop) (g : A -> B) (l : list A) :
  StronglySorted (fun x y => R (g x) (g y)) l -> StronglySorted R (map g l).
Proof.
  induction 1 as [| a l Hl IH Ha]; cbn; constructor; [exact IH |].
  rewrite Forall_forall in *. intros y Hy. apply in_map_iff in Hy.
  destruct Hy as (x & <- & Hx). exact (Ha x Hx).
Qed.

(** The first [n] rows of a descending sort, and the rows left out. *)
Lemma top_of_sorted_reverse {A} (key : A -> Z) (n : nat) (l : list A) :
  let top := firstn n (Frame.sorted_reverse key l) in
  List.length top = Nat.min n (List.length l)
  /\ StronglySorted (fun a b => key b <= key a) top
  /\ exists rest,
       Permutation (top ++ rest)%list l
       /\ forall x y, In x top -> In y rest -> key y <= key x.
Proof.
  intros top. subst top.
  pose proof (FrameFacts.sort_values_desc_sorted key l) as Hsorted.
  change (Frame.sort_values_desc key l) with (Frame.sorted_reverse key l) in Hsorted.
  pose proof (FrameFacts.stable_sort_perm (fun x y => key y <=? key x) l) as Hperm.
  change (Frame.stable_sort (fun x y => key y <=? key x) l)
    with (Frame.sorted_reverse key l) in Hperm.
  split; [| split].
  - rewrite length_firstn. rewrite (Permutation_length Hperm). reflexivity.
  - apply sorted_firstn. exact Hsorted.
  - exists (skipn n (Frame.sorted_reverse key l)). split.
    + rewrite firstn_skipn. exact Hperm.
    + rewrite <- (firstn_skipn n (Frame.sorted_reverse key l)) in Hsorted.
      intros x y Hx Hy.
      exact (sorted_app_cross _ _ _ Hsorted x y Hx Hy).
Qed.

End SortedFacts.

(** X1.  The trend ranker returns, for transfers in and for transfers out,
    a list of min(top_n, number of players) players in non-increasing order
    of the count; the players left out are the rest of the table, and none
    of them has a larger count than a listed player. *)
Theorem transfer_trends_are_the_top_n (players : list Api.element) (top_n : nat) :
  let top_in := fst (SendTransferTrends.get_transfer_trends players top_n) in
  let top_out := snd (SendTransferTrends.get_transfer_trends players top_n) in
  (List.length top_in = Nat.min top_n (List.length players)
   /\ StronglySorted
        (fun a b => Api.transfers_in_event b <= Api.transfers_in_event a) top_in
   /\ exists rest,
        Permutation (top_in ++ rest)%list players
        /\ forall x y, In x top_in -> In y rest ->
                       Api.transfers_in_event y <= Api.transfers_in_event x)
  /\ (List.length top_out = Nat.min top_n (List.length players)
      /\ StronglySorted
           (fun a b => Api.transfers_out_event b <= Api.transfers_out_event a)
           top_out
      /\ exists rest,
           Permutation (top_out ++ rest)%list players
           /\ forall x y, In x top_out -> In y rest ->
                          Api.transfers_out_event y <= Api.transfers_out_event x).
Proof.
  intros top_in top_out. split.
  - apply (SortedFacts.top_of_sorted_reverse Api.transfers_in_event).
  - apply (SortedFacts.top_of_sorted_reverse Api.transfers_out_event).
Qed.

(** X2.  Counts from 999500 up to 999999 are still below the million
    threshold, and rounding to whole thousands takes them to one thousand
    thousands: the count abbreviation prints "1000K" for each of them. *)
Theorem format_number_just_below_million (n : Z) :
  999500 <= n < 1000000 -> SendTransferTrends.format_number n = "1000K".
Proof.
  intros Hn.
  destruct (Z.eq_dec n 999500) as [-> | Hne]; [vm_compute; reflexivity |].
  unfold SendTransferTrends.format_number.
  destruct (Z.leb_spec 1000000 n); [lia |].
  destruct (Z.leb_spec 1000 n); [| lia].
  assert (n < 2 ^ 48) as Hcount
    by (change (2 ^ 48) with 281474976710656; lia).
  destruct (FormatFacts.format_no_decimal n 1000 ltac:(lia) ltac:(lia) Hcount)
    as (k & Hk & Hclose & Htext).
  rewrite Htext. replace k with 1000 by lia. reflexivity.
Qed.

Lemma format_number_just_below_million_witness :
  999500 <= 999871 < 1000000
  /\ SendTransferTrends.format_number 999871 = "1000K".
Proof.
  assert (999500 <= 999871 < 1000000) as Hn by lia.
  split; [exact Hn | exact (format_number_just_below_million 999871 Hn)].
Defined.

(** ** The numbered lines of the trends message *)

Module TrendLineFacts.
Import SendTransferTrends.

Lemma lines_from_length i direction count l :
  List.length (lines_from i direction count l) = List.length l.
Proof.
  revert i. induction l as [| p l IH]; intros i; cbn; [| rewrite IH]; reflexivity.
Qed.

Lemma lines_from_nth i direction count l (k : nat) (p : Api.element) :
  nth_error l k = Some p ->
  nth_error (lines_from i direction count l) k
  = Some (Text.str (i + Z.of_nat k) ++ ". " ++ Api.web_name p ++ " — "
            ++ format_number (count p) ++ " " ++ direction
            ++ " (" ++ net_str (net_of p) ++ " net)")%string.
Proof.
  revert i k. induction l as [| q l IH]; intros i k Hk.
  - destruct k; discriminate Hk.
  - destruct k as [| k].
    + cbn in Hk. injection Hk as ->. cbn. rewrite Z.add_0_r. reflexivity.
    + cbn in Hk. cbn [lines_from nth_error]. rewrite (IH (i + 1) k Hk).
      replace (i + 1 + Z.of_nat k) with (i + Z.of_nat (S k)) by lia.
      reflexivity.
Qed.

End TrendLineFacts.

(** X3.  In the trends message each of the two sections has one line per
    listed player, in the order of the list, and the line of the player at
    position k (counting from 0) starts with the number k + 1: both
    sections are numbered from 1 upward without gaps. *)
Theorem trend_lines_numbered_from_one
    (direction : string) (count : Api.element -> Z)
    (l : list Api.element) (k : nat) (p : Api.element) :
  nth_error l k = Some p ->
  List.length (SendTransferTrends.lines_from 1 direction count l) = List.length l
  /\ nth_error (SendTransferTrends.lines_from 1 direction count l) k
     = Some (Text.str (Z.of_nat k + 1) ++ ". " ++ Api.web_name p ++ " — "
               ++ SendTransferTrends.format_number (count p) ++ " " ++ direction
               ++ " (" ++ SendTransferTrends.net_str (SendTransferTrends.net_of p)
               ++ " net)")%string.
Proof.
  intros Hk. split; [apply TrendLineFacts.lines_from_length |].
  rewrite (TrendLineFacts.lines_from_nth 1 direction count l k p Hk).
  replace (1 + Z.of_nat k) with (Z.of_nat k + 1) by lia. reflexivity.
Qed.

Lemma trend_lines_numbered_from_one_witness :
  nth_error [Sample.busy; Sample.busy_out] 1 = Some Sample.busy_out
  /\ nth_error (SendTransferTrends.lines_from 1 "out" Api.transfers_out_event
                  [Sample.busy; Sample.busy_out]) 1
     = Some "2. Busy — 6K out (-6000 net)".
Proof.
  assert (nth_error [Sample.busy; Sample.busy_out] 1 = Some Sample.busy_out)
    as Hk by reflexivity.
  destruct (trend_lines_numbered_from_one "out" Api.transfers_out_event
              [Sample.busy; Sample.busy_out] 1 Sample.busy_out Hk) as [_ Hline].
  split; [exact Hk |]. rewrite Hline. vm_compute. reflexivity.
Defined.

(** ** Prices: tenths in, one decimal out *)

Module PriceFacts.
Import Float FloatFacts.

(** A value within one part in [2^53] of [a / b] rounds, at [s] steps per
    unit, to the step nearest to [a / b]. *)
Lemma close_of_error (a b s n d : Z) :
  0 < a -> 0 < b -> 0 < s -> s * a < 2 ^ 52 ->
  0 <= n -> 0 < d -> 2 ^ 53 * Z.abs (n * b - a * d) <= a * d ->
  let t := round_half_even (n * s) d in
  0 <= t /\ Z.abs (2 * (s * a - b * t)) <= b.
Proof.
  intros Ha Hb Hs Hsmall Hn Hd He t.
  pose proof (round_half_even_close (n * s) d Hd) as Hc.
  pose proof (round_half_even_nonneg (n * s) d ltac:(nia) Hd) as Ht.
  fold t in Hc, Ht. split; [exact Ht |].
  change (2 ^ 53) with (2 * 2 ^ 52) in He.
  set (P := 2 ^ 52) in *.
  assert (0 < P) as HP by (subst P; apply Z.pow_pos_nonneg; lia).
  set (X := s * a - b * t). set (Y := a * d - b * n) in *.
  set (W := n * s - d * t) in *.
  assert (d * X = s * Y + b * W) as Hid by (subst X Y W; ring).
  assert (- (a * d) <= 2 * P * Y <= a * d) as HY.
  { replace (n * b - a * d) with (- Y) in He by (subst Y; ring). lia. }
  assert (- d <= 2 * W <= d) as HW.
  { replace (d * t - n * s) with (- W) in Hc by (subst W; ring). lia. }
  assert (- (b * d) <= 2 * (b * W) <= b * d) as HbW by nia.
  assert (- (s * (a * d)) <= 2 * P * (s * Y) <= s * (a * d)) as HsY by nia.
  assert (s * (a * d) < P * d) as Hsad by nia.
  assert (- (d * (b + 1)) < 2 * (d * X) < d * (b + 1)) as HX.
  { rewrite Hid.
    assert (- (P * d) < 2 * P * (s * Y) < P * d) as HsY' by lia.
    assert (- d < 2 * (s * Y) < d) as HsY'' by nia.
    lia. }
  assert (- (b + 1) < 2 * X < b + 1) by nia.
  lia.
Qed.

(** The error bound does not depend on how the fraction is written. *)
Lemma round_ratio_scaled_error (a b k : Z) :
  0 < a -> 0 < b -> 0 < k ->
  let '(n, d) := round_ratio (a * k) (b * k) in
  0 <= n /\ 0 < d /\ 2 ^ 53 * Z.abs (n * b - a * d) <= a * d.
Proof.
  intros Ha Hb Hk.
  pose proof (round_ratio_error (a * k) (b * k) ltac:(nia) ltac:(nia)) as H.
  destruct (round_ratio (a * k) (b * k)) as [n d].
  destruct H as (Hn & Hd & He). split; [exact Hn |]. split; [exact Hd |].
  replace (n * (b * k) - a * k * d) with (k * (n * b - a * d)) in He by ring.
  rewrite Z.abs_mul, (Z.abs_eq k) in He by lia.
  set (E := Z.abs (n * b - a * d)) in *.
  assert (0 <= E) by (subst E; apply Z.abs_nonneg).
  assert (0 < 2 ^ 53) by (apply Z.pow_pos_nonneg; lia).
  nia.
Qed.

Lemma round_of_positive (x : Q) :
  0 < Qnum x ->
  round x
  = Qmake (fst (round_ratio (Qnum x) (Zpos (Qden x))))
          (Z.to_pos (snd (round_ratio (Qnum x) (Zpos (Qden x))))).
Proof.
  intros H. unfold round. destruct (Qnum x) as [| p | p]; try lia.
  destruct (round_ratio (Z.pos p) (Z.pos (Qden x))); reflexivity.
Qed.

Lemma round_half_even_whole (a : Z) : round_half_even a 1 = a.
Proof.
  unfold round_half_even. rewrite Z.mod_1_r, Z.div_1_r. reflexivity.
Qed.

(** An int below [2^53] is a float: [float(c)] is [c] itself. *)
Lemma of_int_exact (c : Z) :
  0 < c < 2 ^ 53 ->
  exists D, 0 < D /\ of_int c = Qmake (c * D) (Z.to_pos D).
Proof.
  intros [Hpos Hsmall].
  unfold of_int. rewrite round_of_positive by (cbn; lia).
  cbn [inject_Z Qnum Qden]. unfold round_ratio. cbn [fst snd].
  assert (ilog2_ratio c 1 <= 52) as Hexp.
  { unfold ilog2_ratio. change (Z.log2 1) with 0.
    assert (Z.log2 c < 53) by (apply Z.log2_lt_pow2; lia).
    destruct (scaled_le (Z.log2 c - 0) c 1); lia. }
  unfold precision.
  replace (Z.max 0 (ilog2_ratio c 1 - (53 - 1))) with 0 by lia.
  change (2 ^ 0) with 1. change (1 * 1) with 1.
  rewrite round_half_even_whole, Z.mul_1_r.
  exists (2 ^ Z.max 0 (- (ilog2_ratio c 1 - (53 - 1)))).
  split; [apply pow2_pos | reflexivity].
Qed.

(** [c / 10] printed with [.1f] shows [c] tenths exactly. *)
Lemma tenths_exact (c : Z) :
  0 <= c < 2 ^ 48 ->
  format_fixed 1 (div (of_int c) (of_int 10)) = Shown.tenths_text c.
Proof.
  intros [Hnonneg Hsmall].
  change (2 ^ 48) with 281474976710656 in Hsmall.
  destruct (Z.eq_dec c 0) as [-> | Hne]; [vm_compute; reflexivity |].
  destruct (of_int_exact c) as (D & HD & ->);
    [change (2 ^ 53) with 9007199254740992; lia |].
  assert (of_int 10 = Qmake 5629499534213120 562949953421312) as ->
    by (vm_compute; reflexivity).
  unfold div. rewrite round_of_positive by (cbn; nia).
  unfold Qdiv, Qinv, Qmult. cbn [Qnum Qden].
  rewrite Pos2Z.inj_mul, Z2Pos.id by assumption.
  replace (c * D * Z.pos 562949953421312)
    with (c * (D * 562949953421312)) by ring.
  replace (D * Z.pos 5629499534213120)
    with (10 * (D * 562949953421312)) by ring.
  pose proof (round_ratio_scaled_error c 10 (D * 562949953421312)
                ltac:(lia) ltac:(lia) ltac:(lia)) as H.
  destruct (round_ratio (c * (D * 562949953421312)) (10 * (D * 562949953421312)))
    as [n d].
  destruct H as (Hn & Hd & He). cbn [fst snd].
  destruct (close_of_error c 10 10 n d ltac:(lia) ltac:(lia) ltac:(lia)
              ltac:(change (2 ^ 52) with 4503599627370496; lia) Hn Hd He)
    as [Ht Hclose].
  unfold format_fixed. cbn [Qnum Qden].
  rewrite Z2Pos.id by assumption. rewrite Z.abs_eq by assumption.
  change (10 ^ Z.of_nat 1) with 10.
  replace (round_half_even (n * 10) d) with c by lia.
  destruct (Z.ltb_spec n 0); [lia |].
  rewrite FormatFacts.zero_pad_digit by (apply Z.mod_pos_bound; lia).
  reflexivity.
Qed.

End PriceFacts.

(** X4.  A line of the price-change message shows the new and the old
    price exactly: for prices of [c] and [y] tenths (non-negative, below
    [2^48]) the line is the name padded to 15 characters, the pound sign
    with [c] in units and one decimal padded to 12 characters, and the
    pound sign with [y] in units and one decimal.  The division by ten and
    the float formatting lose nothing.  This holds for the formatter of
    [main.py] and for that of [send_update.py]. *)
Theorem price_line_shows_exact_tenths
    (r : Main.changed_row) (u : SendUpdate.merged_row) (c y : Z) :
  0 <= c < 2 ^ 48 -> 0 <= y < 2 ^ 48 ->
  Main.now_cost (Main.row r) = c -> Main.prev_cost (Main.row r) = Some y ->
  SendUpdate.now_cost u = c -> SendUpdate.prev_cost u = Some y ->
  Main.format_line r
  = (Text.ljust 15 (Main.web_name (Main.row r))
       ++ "£" ++ Text.ljust 12 (Shown.tenths_text c)
       ++ "£" ++ Shown.tenths_text y)%string
  /\ SendUpdate.format_line u
     = (Text.ljust 15 (SendUpdate.web_name u)
          ++ "£" ++ Text.ljust 12 (Shown.tenths_text c)
          ++ "£" ++ Shown.tenths_text y)%string.
Proof.
  intros Hc Hy Hmc Hmy Huc Huy.
  unfold Main.format_line, SendUpdate.format_line.
  rewrite Hmc, Hmy, Huc, Huy. cbn [option_map Main.tenths SendUpdate.tenths].
  rewrite !(PriceFacts.tenths_exact c Hc), !(PriceFacts.tenths_exact y Hy).
  split; reflexivity.
Qed.

Lemma price_line_shows_exact_tenths_witness :
  let r := {| Main.row := Main.merge_row (Sample.player 1 "Palmer" 55 0 0 None)
                            (Some {| Api.y_id := 1; Api.y_now_cost := 50 |});
              Main.arrow := "up" |} in
  let u := SendUpdate.merge_row (Sample.player 1 "Palmer" 55 0 0 None)
             (Some {| Api.y_id := 1; Api.y_now_cost := 50 |}) in
  (0 <= 55 < 2 ^ 48 /\ 0 <= 50 < 2 ^ 48)
  /\ Main.format_line r = "Palmer         £5.5         £5.0"
  /\ SendUpdate.format_line u = "Palmer         £5.5         £5.0".
Proof.
  intros r u.
  assert (0 <= 55 < 2 ^ 48) as Hc by (split; [lia | reflexivity]).
  assert (0 <= 50 < 2 ^ 48) as Hy by (split; [lia | reflexivity]).
  destruct (price_line_shows_exact_tenths r u 55 50 Hc Hy
              eq_refl eq_refl eq_refl eq_refl) as [Hm Hu].
  split; [split; assumption |].
  split; [rewrite Hm | rewrite Hu]; vm_compute; reflexivity.
Defined.

(** X5.  A block of the prediction message shows the player's price
    exactly: for the row of a player whose price is [c] tenths
    (non-negative, below [2^48]) the block is the name, the team in
    brackets, and on the next line the pound sign with [c] in units and one
    decimal, the ownership with one decimal and a percent sign, and the
    signed net transfers. *)
Theorem prediction_block_shows_exact_price
    (teams : outcome (list (Z * string))) (p : Api.element) :
  0 <= Api.now_cost p < 2 ^ 48 ->
  SendPricePredictionsReport.prediction_lines (Claimed.row_of teams p)
  = (Api.web_name p ++ " ("
       ++ SendPricePredictionsReport.team_text
            (SendPricePredictions.a_team (Claimed.row_of teams p))
       ++ ")" ++ Text.newline
       ++ "  £" ++ Shown.tenths_text (Api.now_cost p)
       ++ " | " ++ Float.format_fixed 1 (Claimed.ownership p) ++ "%"
       ++ " | Net: " ++ SendPricePredictionsReport.net_text (Claimed.net p))%string.
Proof.
  intros Hc. unfold SendPricePredictionsReport.prediction_lines.
  change (SendPricePredictions.a_price (Claimed.row_of teams p))
    with (Float.div (Float.of_int (Api.now_cost p)) (Float.of_int 10)).
  rewrite (PriceFacts.tenths_exact (Api.now_cost p) Hc). reflexivity.
Qed.

Lemma prediction_block_shows_exact_price_witness :
  0 <= Api.now_cost Sample.busy < 2 ^ 48
  /\ SendPricePredictionsReport.prediction_lines
       (Claimed.row_of Sample.no_teams Sample.busy)
     = ("Busy (nan)" ++ Text.newline ++ "  £10.0 | 50.0% | Net: +6,000")%string.
Proof.
  assert (0 <= Api.now_cost Sample.busy < 2 ^ 48) as Hc
    by (split; [cbn; lia | reflexivity]).
  split; [exact Hc |].
  rewrite (prediction_block_shows_exact_price Sample.no_teams Sample.busy Hc).
  vm_compute. reflexivity.
Defined.

(** ** Rows of the merged frame *)

Module MergedFacts.
Import FrameFacts.

(** The three columns taken from yesterday's table agree on every row. *)
Lemma main_columns_agree players y (r : Main.merged_row) :
  In r (Main.merged_df players y) ->
  Main.prev_cost r = Main.now_cost_yest r
  /\ Main.daily_change r
     = option_map (fun c => Main.now_cost r - c) (Main.now_cost_yest r).
Proof.
  unfold Main.merged_df. intros H. apply merge_left_In in H.
  destruct H as (p & _ & [(b & _ & _ & ->) | (_ & ->)]); split; reflexivity.
Qed.

Lemma update_columns_agree players y (r : SendUpdate.merged_row) :
  In r (SendUpdate.merged_df players y) ->
  SendUpdate.prev_cost r = SendUpdate.now_cost_yest r
  /\ SendUpdate.daily_change r
     = option_map (fun c => SendUpdate.now_cost r - c) (SendUpdate.now_cost_yest r).
Proof.
  unfold SendUpdate.merged_df. intros H. apply merge_left_In in H.
  destruct H as (p & _ & [(b & _ & _ & ->) | (_ & ->)]); split; reflexivity.
Qed.

Lemma main_listed_row players y (r : Main.merged_row) (d : Z) :
  In r (Main.merged_df players y) -> Main.daily_change r = Some d ->
  exists old, Main.prev_cost r = Some old /\ d = Main.now_cost r - old.
Proof.
  intros Hr Hd. destruct (main_columns_agree players y r Hr) as [Hprev Hch].
  rewrite Hprev. destruct (Main.now_cost_yest r) as [old |]; cbn in Hch.
  - exists old. split; [reflexivity | congruence].
  - congruence.
Qed.

Lemma update_listed_row players y (r : SendUpdate.merged_row) (d : Z) :
  In r (SendUpdate.merged_df players y) -> SendUpdate.daily_change r = Some d ->
  exists old, SendUpdate.prev_cost r = Some old /\ d = SendUpdate.now_cost r - old.
Proof.
  intros Hr Hd. destruct (update_columns_agree players y r Hr) as [Hprev Hch].
  rewrite Hprev. destruct (SendUpdate.now_cost_yest r) as [old |]; cbn in Hch.
  - exists old. split; [reflexivity | congruence].
  - congruence.
Qed.

End MergedFacts.

(** X6.  Every row the change calculator lists has an old price: a row of
    the risen list has a previous price strictly below its current price,
    a row of the fallen list one strictly above it.  No listed row has a
    missing previous price or an unchanged price, in [main.py] and in
    [send_update.py]. *)
Theorem listed_rows_have_a_real_change
    (players : list Api.element) (y : Api.yesterday_frame) :
  Forall (fun r => exists old, Main.prev_cost (Main.row r) = Some old
                               /\ Main.now_cost (Main.row r) < old)
         (fst (Main.price_tables players y))
  /\ Forall (fun r => exists old, Main.prev_cost (Main.row r) = Some old
                                  /\ old < Main.now_cost (Main.row r))
            (snd (Main.price_tables players y))
  /\ Forall (fun r => exists old, SendUpdate.prev_cost r = Some old
                                  /\ old < SendUpdate.now_cost r)
            (fst (SendUpdate.price_tables players y))
  /\ Forall (fun r => exists old, SendUpdate.prev_cost r = Some old
                                  /\ SendUpdate.now_cost r < old)
            (snd (SendUpdate.price_tables players y)).
Proof.
  repeat split; apply Forall_forall; intros r Hr.
  - apply (in_map Main.row) in Hr. apply MainFacts.main_in_falls in Hr.
    destruct Hr as (Hm & d & Hd & Hneg).
    destruct (MergedFacts.main_listed_row players y _ d Hm Hd) as (old & Hold & ->).
    exists old. split; [exact Hold | lia].
  - apply (in_map Main.row) in Hr. apply MainFacts.main_in_rises in Hr.
    destruct Hr as (Hm & d & Hd & Hpos).
    destruct (MergedFacts.main_listed_row players y _ d Hm Hd) as (old & Hold & ->).
    exists old. split; [exact Hold | lia].
  - apply SendUpdateFacts.update_in_rises in Hr.
    destruct Hr as (Hm & d & Hd & Hpos).
    destruct (MergedFacts.update_listed_row players y _ d Hm Hd) as (old & Hold & ->).
    exists old. split; [exact Hold | lia].
  - apply SendUpdateFacts.update_in_falls in Hr.
    destruct Hr as (Hm & d & Hd & Hneg).
    destruct (MergedFacts.update_listed_row players y _ d Hm Hd) as (old & Hold & ->).
    exists old. split; [exact Hold | lia].
Qed.

(** ** The left join when yesterday's ids are distinct *)

Module JoinFacts.
Import Frame.

Lemma partners_at_most_one {B} (kr : B -> Z) (k : Z) (right : list B) :
  NoDup (map kr right) ->
  (List.length (filter (fun b => (kr b =? k)%Z) right) <= 1)%nat.
Proof.
  induction right as [| b right IH]; cbn; intros Hnd; [lia |].
  apply NoDup_cons_iff in Hnd. destruct Hnd as [Hnotin Hnd].
  destruct (Z.eqb_spec (kr b) k) as [Hk | Hk]; [| exact (IH Hnd)].
  cbn. destruct (filter (fun b0 => kr b0 =? k) right) as [| b' rest] eqn:E;
    [cbn; lia |].
  exfalso. apply Hnotin.
  assert (In b' (filter (fun b0 => kr b0 =? k) right)) as Hin
    by (rewrite E; left; reflexivity).
  apply filter_In in Hin. destruct Hin as [Hin Hk']. apply Z.eqb_eq in Hk'.
  apply in_map_iff. exists b'. split; [congruence | exact Hin].
Qed.

(** With distinct keys on the right, a left join has one row per left row,
    in the order of the left table. *)
Lemma merge_left_one_row_each {A B C} (kl : A -> Z) (kr : B -> Z)
    (row : A -> option B -> C) (left : list A) (right : list B) :
  NoDup (map kr right) ->
  exists partner : A -> option B,
    merge_left kl kr row left right = map (fun a => row a (partner a)) left
    /\ forall a b, partner a = Some b -> In b right /\ kr b = kl a.
Proof.
  intros Hnd.
  exists (fun a => List.hd_error (filter (fun b => kr b =? kl a) right)).
  split.
  - unfold merge_left. induction left as [| a left IH]; [reflexivity |].
    cbn [flat_map]. rewrite IH. cbn [map].
    pose proof (partners_at_most_one kr (kl a) right Hnd) as Hlen.
    destruct (filter (fun b => kr b =? kl a) right) as [| b [| b' rest]];
      cbn in *; try reflexivity; lia.
  - intros a b Hb.
    destruct (filter (fun b => kr b =? kl a) right) as [| b0 rest] eqn:E;
      cbn in Hb; [discriminate |].
    injection Hb as ->.
    assert (In b (filter (fun b => kr b =? kl a) right)) as Hin
      by (rewrite E; left; reflexivity).
    apply filter_In in Hin. destruct Hin as [Hin Hk]. apply Z.eqb_eq in Hk. auto.
Qed.

End JoinFacts.

(** X7.  When no id occurs twice in yesterday's table, the merged frame of
    the change calculator has exactly one row per player of the current
    table, in the table's order, carrying the player's id, name and current
    price; this holds in [main.py] and in [send_update.py]. *)
Theorem merged_frame_has_one_row_per_player
    (players : list Api.element) (y : Api.yesterday_frame) :
  NoDup (map Api.y_id (Api.y_rows y)) ->
  map (fun r => (Main.id r, Main.web_name r, Main.now_cost r))
      (Main.merged_df players y)
  = map (fun p => (Api.id p, Api.web_name p, Api.now_cost p)) players
  /\ map (fun r => (SendUpdate.id r, SendUpdate.web_name r, SendUpdate.now_cost r))
         (SendUpdate.merged_df players y)
     = map (fun p => (Api.id p, Api.web_name p, Api.now_cost p)) players.
Proof.
  intros Hnd. split.
  - unfold Main.merged_df.
    destruct (JoinFacts.merge_left_one_row_each Api.id Api.y_id Main.merge_row
                players (Api.y_rows y) Hnd) as (partner & -> & _).
    rewrite map_map. reflexivity.
  - unfold SendUpdate.merged_df.
    destruct (JoinFacts.merge_left_one_row_each Api.id Api.y_id SendUpdate.merge_row
                players (Api.y_rows y) Hnd) as (partner & -> & _).
    rewrite map_map. reflexivity.
Qed.

Lemma merged_frame_has_one_row_per_player_witness :
  NoDup (map Api.y_id (Api.y_rows Sample.two_fallers_yesterday))
  /\ map (fun r => (Main.id r, Main.web_name r, Main.now_cost r))
         (Main.merged_df Sample.two_fallers Sample.two_fallers_yesterday)
     = [(1, "Onana", 45); (2, "Saka", 60)].
Proof.
  assert (NoDup (map Api.y_id (Api.y_rows Sample.two_fallers_yesterday))) as Hnd.
  { cbn. constructor; [intros [H | []]; discriminate H |].
    constructor; [intros [] | constructor]. }
  destruct (merged_frame_has_one_row_per_player Sample.two_fallers
              Sample.two_fallers_yesterday Hnd) as [Hm _].
  split; [exact Hnd |]. rewrite Hm. reflexivity.
Defined.

(** ** The two change calculators side by side *)

Module SiblingFacts.
Import Frame SelectFacts.

Lemma merge_left_as_pairs {A B C} (kl : A -> Z) (kr : B -> Z)
    (row : A -> option B -> C) (left : list A) (right : list B) :
  merge_left kl kr row left right
  = map (fun ab => row (fst ab) (snd ab)) (merge_left kl kr pair left right).
Proof.
  unfold merge_left. induction left as [| a left IH]; [reflexivity |].
  cbn [flat_map]. rewrite map_app, IH. f_equal.
  destruct (filter (fun b => kr b =? kl a) right) as [| b bs]; [reflexivity |].
  rewrite map_map. reflexivity.
Qed.

End SiblingFacts.

Module SiblingRows.
Import Frame SelectFacts Paired.

Lemma main_risen_unsorted players y :
  map Shown.main_summary
      (filter (fun r => String.eqb (Main.arrow r) "up")
         (map (fun r => {| Main.row := r;
                           Main.arrow := Main.arrow_of (Main.daily_change r) |})
              (filter Main.changed (Main.merged_df players y))))
  = map pair_summary (filter rose (pairs players y)).
Proof.
  unfold Main.merged_df. rewrite SiblingFacts.merge_left_as_pairs.
  fold (pairs players y).
  rewrite !filter_map, !map_map, filter_filter.
  rewrite (filter_ext _ rose).
  - apply map_ext. intros [p [b |]]; reflexivity.
  - intros [p [b |]]; [| reflexivity].
    unfold rose, pair_change, Main.changed. cbn.
    destruct (Z.ltb_spec 0 (Api.now_cost p - Api.y_now_cost b)),
             (Z.eqb_spec (Api.now_cost p - Api.y_now_cost b) 0),
             (Z.ltb_spec (Api.now_cost p - Api.y_now_cost b) 0);
      cbn; try reflexivity; lia.
Qed.

Lemma main_fallen_unsorted players y :
  map Shown.main_summary
      (filter (fun r => String.eqb (Main.arrow r) "down")
         (map (fun r => {| Main.row := r;
                           Main.arrow := Main.arrow_of (Main.daily_change r) |})
              (filter Main.changed (Main.merged_df players y))))
  = map pair_summary (filter fell (pairs players y)).
Proof.
  unfold Main.merged_df. rewrite SiblingFacts.merge_left_as_pairs.
  fold (pairs players y).
  rewrite !filter_map, !map_map, filter_filter.
  rewrite (filter_ext _ fell).
  - apply map_ext. intros [p [b |]]; reflexivity.
  - intros [p [b |]]; [| reflexivity].
    unfold fell, pair_change, Main.changed. cbn.
    destruct (Z.ltb_spec 0 (Api.now_cost p - Api.y_now_cost b)),
             (Z.eqb_spec (Api.now_cost p - Api.y_now_cost b) 0),
             (Z.ltb_spec (Api.now_cost p - Api.y_now_cost b) 0);
      cbn; try reflexivity; lia.
Qed.

Lemma update_risen_unsorted players y :
  map Shown.update_summary
      (filter SendUpdate.risen
         (filter SendUpdate.changed (SendUpdate.merged_df players y)))
  = map pair_summary (filter rose (pairs players y)).
Proof.
  unfold SendUpdate.merged_df. rewrite SiblingFacts.merge_left_as_pairs.
  fold (pairs players y).
  rewrite !filter_map, !map_map, filter_filter.
  rewrite (filter_ext _ rose).
  - apply map_ext. intros [p [b |]]; reflexivity.
  - intros [p [b |]]; [| reflexivity].
    unfold rose, pair_change, SendUpdate.changed, SendUpdate.risen. cbn.
    destruct (Z.ltb_spec 0 (Api.now_cost p - Api.y_now_cost b)),
             (Z.eqb_spec (Api.now_cost p - Api.y_now_cost b) 0);
      cbn; try reflexivity; lia.
Qed.

Lemma update_fallen_unsorted players y :
  map Shown.update_summary
      (filter SendUpdate.fallen
         (filter SendUpdate.changed (SendUpdate.merged_df players y)))
  = map pair_summary (filter fell (pairs players y)).
Proof.
  unfold SendUpdate.merged_df. rewrite SiblingFacts.merge_left_as_pairs.
  fold (pairs players y).
  rewrite !filter_map, !map_map, filter_filter.
  rewrite (filter_ext _ fell).
  - apply map_ext. intros [p [b |]]; reflexivity.
  - intros [p [b |]]; [| reflexivity].
    unfold fell, pair_change, SendUpdate.changed, SendUpdate.fallen. cbn.
    destruct (Z.ltb_spec (Api.now_cost p - Api.y_now_cost b) 0),
             (Z.eqb_spec (Api.now_cost p - Api.y_now_cost b) 0);
      cbn; try reflexivity; lia.
Qed.

Lemma sorted_summary {A S} (before : A -> A -> bool) (f : A -> S) (l : list A) :
  Permutation (map f (stable_sort before l)) (map f l).
Proof. apply Permutation_map. apply FrameFacts.stable_sort_perm. Qed.

End SiblingRows.

(** X8.  On the same two tables [main.py] and [send_update.py] list the
    same movers: the risen rows of one are, up to order, the risen rows of
    the other with the same id, current price and previous price, and
    likewise the fallen rows; both are the player/yesterday pairs whose
    price difference is positive, respectively negative. *)
Theorem both_scripts_list_the_same_movers
    (players : list Api.element) (y : Api.yesterday_frame) :
  Permutation (map Shown.main_summary (snd (Main.price_tables players y)))
              (map Shown.update_summary (fst (SendUpdate.price_tables players y)))
  /\ Permutation (map Shown.main_summary (fst (Main.price_tables players y)))
                 (map Shown.update_summary (snd (SendUpdate.price_tables players y)))
  /\ Permutation (map Shown.main_summary (snd (Main.price_tables players y)))
                 (map Paired.pair_summary
                      (filter Paired.rose (Paired.pairs players y)))
  /\ Permutation (map Shown.main_summary (fst (Main.price_tables players y)))
                 (map Paired.pair_summary
                      (filter Paired.fell (Paired.pairs players y))).
Proof.
  unfold Main.price_tables, SendUpdate.price_tables,
    Frame.sort_values_asc, Frame.sort_values_desc.
  cbv zeta. cbn [fst snd].
  pose proof (SiblingRows.main_risen_unsorted players y) as Hmr.
  pose proof (SiblingRows.main_fallen_unsorted players y) as Hmf.
  pose proof (SiblingRows.update_risen_unsorted players y) as Hur.
  pose proof (SiblingRows.update_fallen_unsorted players y) as Huf.
  repeat split.
  - rewrite !SiblingRows.sorted_summary, Hmr, Hur. reflexivity.
  - rewrite !SiblingRows.sorted_summary, Hmf, Huf. reflexivity.
  - rewrite SiblingRows.sorted_summary, Hmr. reflexivity.
  - rewrite SiblingRows.sorted_summary, Hmf. reflexivity.
Qed.

(** ** Loading the baseline and reporting *)

Module RunFacts.
Import Run.

Lemma main_load env w :
  exists w',
    Main.load_yesterday_costs env w = (Returned (Shown.loaded env), w')
    /\ outbox w' = outbox w.
Proof.
  unfold Main.load_yesterday_costs, try_except, bind, lift, Shown.loaded.
  destruct (github_csv env) as [df | e]; cbn; eexists; split; reflexivity.
Qed.

Lemma update_load env w :
  exists w',
    SendUpdate.load_yesterday_costs env w = (Returned (Shown.loaded env), w')
    /\ outbox w' = outbox w.
Proof.
  unfold SendUpdate.load_yesterday_costs, try_except, bind, lift, Shown.loaded.
  destruct (github_csv env) as [df | e]; cbn; eexists; split; reflexivity.
Qed.

(** The formatter of [main.py] never returns the empty text. *)
Lemma main_format_nonempty df change_type :
  String.eqb (Main.format_price_changes df change_type) EmptyString = false.
Proof.
  unfold Main.format_price_changes. destruct change_type; reflexivity.
Qed.

(** What [get_price_changes] of [main.py] does once the player table is
    there. *)
Lemma main_get_price_changes env w players :
  fpl_api env = Returned players ->
  exists w',
    Main.get_price_changes env w
    = ((if Api.empty (Shown.loaded env)
        then Returned (Main.missing_csv_warning, EmptyString)
        else match players with
             | [] => Raised (keys_error Main.clean_columns)
             | _ =>
                 Returned
                   (Main.format_price_changes
                      (fst (Main.price_tables players (Shown.loaded env)))
                      "Price Falls",
                    Main.format_price_changes
                      (snd (Main.price_tables players (Shown.loaded env)))
                      "Price Rises")
             end),
       w')
    /\ outbox w' = outbox w.
Proof.
  intros Hfpl. destruct (main_load env w) as (w' & Hload & Hout).
  exists w'. split; [| exact Hout].
  unfold Main.get_price_changes, Main.fetch_fpl_data, bind at 1, lift.
  rewrite Hfpl. unfold bind. rewrite Hload.
  destruct (Api.empty (Shown.loaded env)); [reflexivity |].
  destruct players as [| p players]; [reflexivity |].
  destruct (Main.price_tables (p :: players) (Shown.loaded env)); reflexivity.
Qed.

End RunFacts.

(** X9.  The baseline loader never raises and never sends: whatever the
    request for yesterday's file does, [load_yesterday_costs] returns a
    frame (the fetched one, or the empty frame when the request or the
    parse raised) and leaves the outbox as it was, in [main.py] and in
    [send_update.py]. *)
Theorem baseline_loader_never_raises (env : Run.environment) (w : Run.world) :
  fst (Main.load_yesterday_costs env w) = Returned (Shown.loaded env)
  /\ Run.outbox (snd (Main.load_yesterday_costs env w)) = Run.outbox w
  /\ fst (SendUpdate.load_yesterday_costs env w) = Returned (Shown.loaded env)
  /\ Run.outbox (snd (SendUpdate.load_yesterday_costs env w)) = Run.outbox w.
Proof.
  destruct (RunFacts.main_load env w) as (w1 & H1 & O1).
  destruct (RunFacts.update_load env w) as (w2 & H2 & O2).
  rewrite H1, H2. cbn [fst snd]. auto.
Qed.

(** X10.  When the request for the player table raises, nothing else
    happens: [get_price_changes], the command handler and the timed push of
    [main.py], and [get_price_changes] of [send_update.py], raise that same
    error, with no text sent, no line printed and the baseline not
    requested. *)
Theorem player_fetch_failure_propagates
    (env : Run.environment) (w : Run.world) (e : string) (chat : Z) :
  Run.fpl_api env = Raised e ->
  Main.get_price_changes env w = (Raised e, w)
  /\ Main.handle_price_changes env chat w = (Raised e, w)
  /\ Main.send_price_update env w = (Raised e, w)
  /\ SendUpdate.get_price_changes env w = (Raised e, w).
Proof.
  intros Hfpl.
  assert (Main.get_price_changes env w = (Raised e, w)) as Hget.
  { unfold Main.get_price_changes, Main.fetch_fpl_data, Run.bind, Run.lift.
    rewrite Hfpl. reflexivity. }
  split; [exact Hget |].
  split; [unfold Main.handle_price_changes, Run.bind; rewrite Hget; reflexivity |].
  split; [unfold Main.send_price_update, Run.bind; rewrite Hget; reflexivity |].
  unfold SendUpdate.get_price_changes, SendUpdate.fetch_fpl_data, Run.bind, Run.lift.
  rewrite Hfpl. reflexivity.
Qed.

Lemma player_fetch_failure_propagates_witness :
  let env :=
    {| Run.fpl_api := Raised "503 Server Error";
       Run.github_csv := Returned Sample.one_riser_yesterday;
       Run.today := "2025-01-01";
       Run.telegram_rejects := fun _ _ => None |} in
  Run.fpl_api env = Raised "503 Server Error"
  /\ Main.handle_price_changes env 7 Sample.fresh_world
     = (Raised "503 Server Error", Sample.fresh_world).
Proof.
  intros env.
  destruct (player_fetch_failure_propagates env Sample.fresh_world
              "503 Server Error" 7 eq_refl) as (_ & Hhandle & _).
  split; [reflexivity | exact Hhandle].
Defined.

(** X11.  Once the player table is fetched, the command handler and the
    timed push of [main.py] hand at most one text to the messaging
    platform: the warning when the loaded baseline is empty; otherwise,
    for a player table with a row, the dated report built from the two
    formatted lists; and nothing when the baseline is there and the player
    table is empty, because step 3 then raises KeyError.  A report is never
    taken for the warning, whatever the players are called, because the
    second text of a report is never empty.  A call that sends returns
    normally unless the platform rejects the text. *)
Theorem handler_sends_one_text
    (env : Run.environment) (w : Run.world)
    (players : list Api.element) (chat : Z) :
  Run.fpl_api env = Returned players ->
  let report :=
    Main.format_final_message env
      (Main.format_price_changes
         (fst (Main.price_tables players (Shown.loaded env))) "Price Falls")
      (Main.format_price_changes
         (snd (Main.price_tables players (Shown.loaded env))) "Price Rises") in
  let verdict (to : Z) (text : string) : outcome unit :=
    match Run.telegram_rejects env to text with
    | Some e => Raised e
    | None => Returned tt
    end in
  let texts (to : Z) : list (Z * string) :=
    if Api.empty (Shown.loaded env) then [(to, Main.missing_csv_warning)]
    else match players with
         | [] => []
         | _ => [(to, report)]
         end in
  let result (to : Z) : outcome unit :=
    if Api.empty (Shown.loaded env) then verdict to Main.missing_csv_warning
    else match players with
         | [] => Raised (keys_error Main.clean_columns)
         | _ => verdict to report
         end in
  Run.outbox (snd (Main.handle_price_changes env chat w))
  = app (Run.outbox w) (texts chat)
  /\ fst (Main.handle_price_changes env chat w) = result chat
  /\ Run.outbox (snd (Main.send_price_update env w))
     = app (Run.outbox w) (texts Main.CHAT_ID)
  /\ fst (Main.send_price_update env w) = result Main.CHAT_ID.
Proof.
  intros Hfpl report verdict texts result.
  destruct (RunFacts.main_get_price_changes env w players Hfpl) as (w' & Hget & Hout).
  assert (forall c,
            Run.bind (Main.get_price_changes env)
              (fun msgs =>
                 let '(falls_message, rises_message) := msgs in
                 if Text.contains "Warning:" falls_message
                    && String.eqb rises_message EmptyString
                 then Run.send_message env c falls_message
                 else Run.send_message env c
                        (Main.format_final_message env falls_message rises_message))
              w
            = (result c,
               {| Run.outbox := app (Run.outbox w) (texts c);
                  Run.stdout := Run.stdout w' |})) as Hrun.
  { intros c. unfold Run.bind. rewrite Hget. subst texts result verdict report.
    cbv beta.
    destruct (Api.empty (Shown.loaded env)).
    - cbv iota beta.
      change (Text.contains "Warning:" Main.missing_csv_warning
              && String.eqb EmptyString EmptyString) with true.
      cbv iota. unfold Run.send_message. rewrite Hout.
      destruct (Run.telegram_rejects env c Main.missing_csv_warning); reflexivity.
    - destruct players as [| p players].
      + cbv iota beta. rewrite app_nil_r, <- Hout. destruct w'; reflexivity.
      + cbv iota beta.
        rewrite RunFacts.main_format_nonempty, andb_false_r.
        cbv iota. unfold Run.send_message. rewrite Hout.
        match goal with
        | |- context [Run.telegram_rejects env c ?t] =>
            destruct (Run.telegram_rejects env c t)
        end; reflexivity. }
  unfold Main.handle_price_changes, Main.send_price_update.
  rewrite !Hrun. cbn [fst snd Run.outbox]. auto.
Qed.

Lemma handler_sends_one_text_witness :
  let env :=
    {| Run.fpl_api := Returned Sample.one_riser;
       Run.github_csv := Returned Sample.one_riser_yesterday;
       Run.today := "2025-01-01";
       Run.telegram_rejects := fun _ _ => None |} in
  Run.fpl_api env = Returned Sample.one_riser
  /\ List.length (Run.outbox (snd (Main.handle_price_changes env 7 Sample.fresh_world)))
     = 1%nat
  /\ fst (Main.handle_price_changes env 7 Sample.fresh_world) = Returned tt.
Proof.
  intros env.
  destruct (handler_sends_one_text env Sample.fresh_world Sample.one_riser 7 eq_refl)
    as (Hout & Hres & _).
  split; [reflexivity |]. split.
  - rewrite Hout. reflexivity.
  - rewrite Hres. reflexivity.
Defined.

(** X12.  Once the player table is fetched, [get_price_changes] of
    [send_update.py] returns the error text "Could not load yesterday's
    data" with no tables when the loaded baseline is empty; otherwise, for
    a player table with a row, the risen and the fallen table with no
    error text; and when the baseline is there and the player table is
    empty it raises KeyError on the column selection.  It sends nothing. *)
Theorem send_update_returns_tables_or_error
    (env : Run.environment) (w : Run.world) (players : list Api.element) :
  Run.fpl_api env = Returned players ->
  fst (SendUpdate.get_price_changes env w)
  = (if Api.empty (Shown.loaded env)
     then Returned (None, None, Some "Could not load yesterday's data")
     else match players with
          | [] => Raised (keys_error SendUpdate.clean_columns)
          | _ =>
              Returned
                (Some (fst (SendUpdate.price_tables players (Shown.loaded env))),
                 Some (snd (SendUpdate.price_tables players (Shown.loaded env))),
                 None)
          end)
  /\ Run.outbox (snd (SendUpdate.get_price_changes env w)) = Run.outbox w.
Proof.
  intros Hfpl. destruct (RunFacts.update_load env w) as (w' & Hload & Hout).
  unfold SendUpdate.get_price_changes, SendUpdate.fetch_fpl_data,
    Run.bind at 1 3, Run.lift.
  rewrite Hfpl. unfold Run.bind. rewrite Hload.
  destruct (Api.empty (Shown.loaded env)); [split; [reflexivity | exact Hout] |].
  destruct players as [| p players]; [split; [reflexivity | exact Hout] |].
  destruct (SendUpdate.price_tables (p :: players) (Shown.loaded env)).
  split; [reflexivity | exact Hout].
Qed.

Lemma send_update_returns_tables_or_error_witness :
  let env :=
    {| Run.fpl_api := Returned Sample.one_riser;
       Run.github_csv := Raised "404 Client Error";
       Run.today := "2025-01-01";
       Run.telegram_rejects := fun _ _ => None |} in
  Run.fpl_api env = Returned Sample.one_riser
  /\ fst (SendUpdate.get_price_changes env Sample.fresh_world)
     = Returned (None, None, Some "Could not load yesterday's data").
Proof.
  intros env.
  destruct (send_update_returns_tables_or_error env Sample.fresh_world
              Sample.one_riser eq_refl) as [Hres _].
  split; [reflexivity | exact Hres].
Defined.

(** ** The order of the prediction lists *)

Module RankFacts.
Import Frame SortedFacts.

Lemma nlargest_sorted {A} (n : nat) (key : A -> Q) (l : list A) :
  StronglySorted (fun x y => (key y <= key x)%Q) (nlargest n key l).
Proof.
  unfold nlargest. apply sorted_firstn.
  apply FrameFacts.StronglySorted_weaken
    with (R := fun x y => Qle_bool (key y) (key x) = true).
  - intros x y H. apply Qle_bool_iff. exact H.
  - apply FrameFacts.stable_sort_sorted.
    + intros x y. rewrite !Qle_bool_iff.
      destruct (Qlt_le_dec (key x) (key y)) as [H | H];
        [right; apply Qlt_le_weak; exact H | left; exact H].
    + intros x y z. rewrite !Qle_bool_iff. intros H1 H2.
      exact (Qle_trans _ _ _ H2 H1).
Qed.

End RankFacts.

(** X13.  Each of the two final prediction lists has at most five rows, and
    its rows are in non-increasing order of the pressure it is ranked by:
    rising_pressure for the rising list, falling_pressure for the falling
    list. *)
Theorem prediction_lists_are_ranked
    (teams : outcome (list (Z * string))) (players : list Api.element) :
  let rising := fst (SendPricePredictions.predictions teams players) in
  let falling := snd (SendPricePredictions.predictions teams players) in
  (List.length rising <= 5)%nat
  /\ StronglySorted
       (fun a b => (SendPricePredictions.a_rising_pressure b
                    <= SendPricePredictions.a_rising_pressure a)%Q) rising
  /\ (List.length falling <= 5)%nat
  /\ StronglySorted
       (fun a b => (SendPricePredictions.a_falling_pressure b
                    <= SendPricePredictions.a_falling_pressure a)%Q) falling.
Proof.
  intros rising falling. subst rising falling.
  rewrite PredictionFacts.predictions_floor_last. cbn [fst snd].
  unfold Claimed.rising_floor_last, Claimed.falling_floor_last.
  rewrite !length_map.
  split; [apply firstn_le_length |].
  split; [| split; [apply firstn_le_length |]].
  - apply SortedFacts.sorted_map. apply SortedFacts.sorted_firstn.
    apply SortedFacts.sorted_filter.
    apply (RankFacts.nlargest_sorted 10 (Claimed.pressure Api.transfers_in_event)).
  - apply SortedFacts.sorted_map. apply SortedFacts.sorted_firstn.
    apply SortedFacts.sorted_filter.
    apply (RankFacts.nlargest_sorted 10 (Claimed.pressure Api.transfers_out_event)).
Qed.

(** X14.  Who is predicted does not depend on the teams request: for any
    two answers to it the two final lists have the same rows but for the
    team column; and when the request fails every listed row has the empty
    text as its team. *)
Theorem predictions_do_not_depend_on_teams
    (teams1 teams2 : outcome (list (Z * string))) (e : string)
    (players : list Api.element) :
  map Shown.prediction_figures (fst (SendPricePredictions.predictions teams1 players))
  = map Shown.prediction_figures (fst (SendPricePredictions.predictions teams2 players))
  /\ map Shown.prediction_figures (snd (SendPricePredictions.predictions teams1 players))
     = map Shown.prediction_figures (snd (SendPricePredictions.predictions teams2 players))
  /\ Forall (fun r => SendPricePredictions.a_team r = Some EmptyString)
            (fst (SendPricePredictions.predictions (Raised e) players)
             ++ snd (SendPricePredictions.predictions (Raised e) players)).
Proof.
  rewrite !PredictionFacts.predictions_floor_last. cbn [fst snd].
  rewrite !map_map. split; [reflexivity |]. split; [reflexivity |].
  apply Forall_forall. intros r Hr. apply in_app_or in Hr.
  destruct Hr as [Hr | Hr]; apply in_map_iff in Hr;
    destruct Hr as (p & <- & _); reflexivity.
Qed.


(** ** Thousands separators *)

Module CommaFacts.
Import SendPricePredictionsReport.

Lemma digit_is_not_comma (c : ascii) :
  Text.is_digit c = true -> negb (Ascii.eqb c ","%char) = true.
Proof.
  intros H. destruct (Ascii.eqb_spec c ","%char) as [-> | _];
    [discriminate H | reflexivity].
Qed.

Lemma digits_have_no_comma (s : string) :
  Text.all_digits s = true ->
  Forall (fun c => negb (Ascii.eqb c ","%char) = true) (list_ascii_of_string s).
Proof.
  induction s as [| c s IH]; cbn; intros H; [constructor |].
  apply andb_true_iff in H. destruct H as [Hc Hs].
  constructor; [apply digit_is_not_comma; exact Hc | exact (IH Hs)].
Qed.

Lemma keep_char (c : ascii) (l : list ascii) :
  negb (Ascii.eqb c ","%char) = true ->
  filter (fun c => negb (Ascii.eqb c ","%char)) (c :: l)
  = c :: filter (fun c => negb (Ascii.eqb c ","%char)) l.
Proof. intros H. cbn. rewrite H. reflexivity. Qed.

Lemma drop_comma (l : list ascii) :
  filter (fun c => negb (Ascii.eqb c ","%char)) (","%char :: l)
  = filter (fun c => negb (Ascii.eqb c ","%char)) l.
Proof. reflexivity. Qed.

(** Dropping the commas of a grouped list gives the list back. *)
Lemma ungroup_reversed (n : nat) (l : list ascii) :
  (List.length l <= n)%nat ->
  Forall (fun c => negb (Ascii.eqb c ","%char) = true) l ->
  filter (fun c => negb (Ascii.eqb c ","%char)) (group_reversed l) = l.
Proof.
  revert l. induction n as [| n IH]; intros l Hlen Hok.
  - destruct l; [reflexivity | cbn in Hlen; lia].
  - assert (filter (fun c => negb (Ascii.eqb c ","%char)) l = l) as Hplain.
    { clear Hlen. induction Hok as [| c l Hc Hl IHl]; cbn; [reflexivity |].
      rewrite Hc, IHl. reflexivity. }
    destruct l as [| a [| b [| c [| d rest]]]]; try exact Hplain.
    change (group_reversed (a :: b :: c :: d :: rest))
      with (a :: b :: c :: ","%char :: group_reversed (d :: rest)).
    apply Forall_cons_iff in Hok. destruct Hok as [Ha Hok].
    apply Forall_cons_iff in Hok. destruct Hok as [Hb Hok].
    apply Forall_cons_iff in Hok. destruct Hok as [Hc Hok].
    rewrite !keep_char by assumption.
    rewrite drop_comma.
    rewrite (IH (d :: rest)); [reflexivity | cbn in *; lia | exact Hok].
Qed.

Lemma strip_group_digits (s : string) :
  Text.all_digits s = true -> strip_commas (group_digits s) = s.
Proof.
  intros H. unfold strip_commas, group_digits.
  rewrite list_ascii_of_string_of_list_ascii, filter_rev.
  rewrite (ungroup_reversed (List.length (rev (list_ascii_of_string s))));
    [| lia | apply Forall_rev; apply digits_have_no_comma; exact H].
  rewrite rev_involutive. apply string_of_list_ascii_of_string.
Qed.

Lemma str_nonneg_digits (n : Z) : 0 <= n -> Text.all_digits (Text.str n) = true.
Proof.
  intros H. unfold Text.str. destruct n as [| p | p]; try lia;
    apply StrFacts.nilzero_all_digits.
Qed.

Lemma str_negative (n : Z) :
  n < 0 -> Text.str n = String "-"%char (Text.str (- n)).
Proof. intros H. destruct n as [| p | p]; try lia. reflexivity. Qed.

End CommaFacts.

(** X15.  The thousands separators of the net-transfer figure in a
    prediction block only add commas: taking the commas out of the grouped
    text gives the decimal text of the number back, for every integer,
    negative ones included; the figure of a positive number carries a plus
    sign in front. *)
Theorem thousands_separators_keep_the_digits (n : Z) :
  SendPricePredictionsReport.strip_commas (SendPricePredictionsReport.with_commas n)
  = Text.str n
  /\ SendPricePredictionsReport.strip_commas (SendPricePredictionsReport.net_text n)
     = ((if (0 <? n)%Z then "+" else EmptyString) ++ Text.str n)%string.
Proof.
  assert (SendPricePredictionsReport.strip_commas
            (SendPricePredictionsReport.with_commas n) = Text.str n) as Hstrip.
  { unfold SendPricePredictionsReport.with_commas.
    destruct (Z.ltb_spec n 0) as [Hneg | Hpos].
    - rewrite (CommaFacts.str_negative n Hneg).
      pose proof (CommaFacts.strip_group_digits (Text.str (- n))
                    (CommaFacts.str_nonneg_digits (- n) ltac:(lia))) as H.
      unfold SendPricePredictionsReport.strip_commas in *.
      cbn [String.append list_ascii_of_string filter].
      change (negb (Ascii.eqb "-"%char ","%char)) with true. cbv iota.
      cbn [string_of_list_ascii]. rewrite H. reflexivity.
    - apply CommaFacts.strip_group_digits.
      apply CommaFacts.str_nonneg_digits. exact Hpos. }
  split; [exact Hstrip |].
  unfold SendPricePredictionsReport.net_text.
  destruct (0 <? n); [| exact Hstrip].
  unfold SendPricePredictionsReport.strip_commas in *.
  cbn [String.append list_ascii_of_string filter].
  change (negb (Ascii.eqb "+"%char ","%char)) with true. cbv iota.
  cbn [string_of_list_ascii]. rewrite Hstrip. reflexivity.
Qed.

(** X16.  A run of the trends script hands at most one text to the
    messaging platform.  Without an API key, or when the request for the
    player table raises, it sends nothing and exits with status 1.
    Otherwise it sends the trends message of the ten most transferred
    players each way to the configured chat, and it finishes normally
    exactly when the platform accepts that text; a rejected send exits
    with status 1. *)
Theorem trends_script_sends_at_most_once
    (env : Oneshot.environment) (w : Oneshot.world) :
  let chat := TrendsScript.CHAT_ID env in
  let message players :=
    SendTransferTrends.format_transfer_message (Oneshot.today env)
      (fst (SendTransferTrends.get_transfer_trends players 10))
      (snd (SendTransferTrends.get_transfer_trends players 10)) in
  Oneshot.sent (snd (TrendsScript.script env w))
  = app (Oneshot.sent w)
        (if Oneshot.no_api_key env then []
         else match Oneshot.fpl_api env with
              | Returned players => [(chat, message players)]
              | Raised _ => []
              end)
  /\ fst (TrendsScript.script env w)
     = (if Oneshot.no_api_key env then Oneshot.Exited 1
        else match Oneshot.fpl_api env with
             | Returned players =>
                 match Oneshot.rejects env chat (message players) with
                 | None => Oneshot.Finished
                 | Some _ => Oneshot.Exited 1
                 end
             | Raised _ => Oneshot.Exited 1
             end).
Proof.
  intros chat message. unfold TrendsScript.script.
  destruct (Oneshot.no_api_key env);
    [cbn; rewrite app_nil_r; split; reflexivity |].
  unfold TrendsScript.main.
  destruct (Oneshot.fpl_api env) as [players | e];
    [| cbn; rewrite app_nil_r; split; reflexivity].
  subst message chat. cbv beta.
  destruct (SendTransferTrends.get_transfer_trends players 10) as [top_in top_out].
  cbn [fst snd].
  destruct (Oneshot.rejects env (TrendsScript.CHAT_ID env)
              (SendTransferTrends.format_transfer_message (Oneshot.today env)
                 top_in top_out));
    split; reflexivity.
Qed.

(** X17.  A run of the predictions script with an API key reports a
    failed request for the player table to the chat: it hands exactly one
    text to the messaging platform, the error notice naming the cause.
    For a fetched table with a row it hands exactly one text, the
    predictions message.  In both cases it finishes normally exactly when
    the platform accepts the text and exits with status 1 when it rejects
    it.  For a fetched table without rows the KeyError of the pressure
    computation is caught nowhere: nothing is sent and the status is 1.
    Without an API key nothing is sent and the status is 1. *)
Theorem predictions_script_reports_unless_table_empty
    (env : Oneshot.environment) (w : Oneshot.world) :
  let chat := PredictionsScript.CHAT_ID env in
  let verdict (message : string) : Oneshot.ending :=
    match Oneshot.rejects env chat message with
    | None => Oneshot.Finished
    | Some _ => Oneshot.Exited 1
    end in
  let report (players : list Api.element) : string :=
    PredictionsScript.predictions_message
      (fst (SendPricePredictions.predictions (Oneshot.teams_api env) players))
      (snd (SendPricePredictions.predictions (Oneshot.teams_api env) players)) in
  let notice (e : string) : string :=
    PredictionsScript.error_message ("Failed to fetch FPL data: " ++ e) in
  Oneshot.sent (snd (PredictionsScript.script env w))
  = app (Oneshot.sent w)
        (if Oneshot.no_api_key env then []
         else match Oneshot.fpl_api env with
              | Raised e => [(chat, notice e)]
              | Returned [] => []
              | Returned players => [(chat, report players)]
              end)
  /\ fst (PredictionsScript.script env w)
     = (if Oneshot.no_api_key env then Oneshot.Exited 1
        else match Oneshot.fpl_api env with
             | Raised e => verdict (notice e)
             | Returned [] => Oneshot.Exited 1
             | Returned players => verdict (report players)
             end).
Proof.
  intros chat verdict report notice. unfold PredictionsScript.script.
  destruct (Oneshot.no_api_key env);
    [cbn; rewrite app_nil_r; split; reflexivity |].
  unfold PredictionsScript.main.
  subst verdict report notice chat. cbv beta.
  destruct (Oneshot.fpl_api env) as [players | e].
  - rewrite PredictionFacts.get_price_predictions_fetched.
    destruct players as [| p players];
      [cbn; rewrite app_nil_r; split; reflexivity |].
    destruct (SendPricePredictions.predictions (Oneshot.teams_api env) (p :: players))
      as [rising falling].
    cbn [fst snd]. unfold PredictionsScript.deliver.
    destruct (Oneshot.rejects env (PredictionsScript.CHAT_ID env)
                (PredictionsScript.predictions_message rising falling));
      split; reflexivity.
  - cbn [SendPricePredictions.get_price_predictions].
    unfold PredictionsScript.deliver.
    destruct (Oneshot.rejects env (PredictionsScript.CHAT_ID env)
                (PredictionsScript.error_message ("Failed to fetch FPL data: " ++ e)));
      split; reflexivity.
Qed.

(** X18.  The trends script never addresses the empty chat: an unset or
    empty CHAT_ID variable gives the default channel.  The predictions
    script reads the variable with a default for the unset case only, so
    its destination is the empty text exactly when the variable is set and
    empty. *)
Theorem empty_chat_id_falls_back_in_trends_only (env : Oneshot.environment) :
  TrendsScript.CHAT_ID env <> EmptyString
  /\ (PredictionsScript.CHAT_ID env = EmptyString
      <-> Oneshot.chat_id env = Some EmptyString).
Proof.
  unfold TrendsScript.CHAT_ID, PredictionsScript.CHAT_ID,
    Oneshot.getenv_or, Oneshot.getenv_default.
  destruct (Oneshot.chat_id env) as [v |].
  - split.
    + destruct (String.eqb_spec v EmptyString) as [-> | Hne];
        [discriminate | exact Hne].
    + split; [intros ->; reflexivity | intros [= ->]; reflexivity].
  - split; [discriminate | split; discriminate].
Qed.

(** ** The team names *)

Module TeamFacts.
Import SendPricePredictions.

Lemma lookup_app (l1 l2 : list (Z * string)) (k : Z) :
  lookup (l1 ++ l2) k
  = match lookup l1 k with
    | Some v => Some v
    | None => lookup l2 k
    end.
Proof.
  induction l1 as [| [k' v'] l1 IH]; cbn; [reflexivity |].
  destruct (k' =? k); [reflexivity | exact IH].
Qed.

Lemma lookup_none (l : list (Z * string)) (k : Z) :
  lookup l k = None <-> ~ In k (map fst l).
Proof.
  induction l as [| [k' v'] l IH]; cbn; [tauto |].
  destruct (Z.eqb_spec k' k) as [-> | Hne].
  - split; [discriminate | intros H; exfalso; apply H; left; reflexivity].
  - rewrite IH. split; [intros H [Hk | Hin]; [exact (Hne Hk) | exact (H Hin)]
                       | intros H Hin; apply H; right; exact Hin].
Qed.

(** A lookup returns the value of the first entry with the key. *)
Lemma lookup_first (l : list (Z * string)) (k : Z) (v : string) :
  lookup l k = Some v
  <-> exists l1 l2, l = (l1 ++ (k, v) :: l2)%list /\ ~ In k (map fst l1).
Proof.
  induction l as [| [k' v'] l IH]; cbn.
  - split; [discriminate |].
    intros (l1 & l2 & H & _). destruct l1; discriminate H.
  - destruct (Z.eqb_spec k' k) as [-> | Hne].
    + split.
      * intros [= ->]. exists [], l. split; [reflexivity | intros []].
      * intros ([| [k1 v1] l1] & l2 & H & Hnot).
        -- cbn in H. injection H as -> _. reflexivity.
        -- cbn in H. injection H as -> _ _. exfalso. apply Hnot. left. reflexivity.
    + rewrite IH. split.
      * intros (l1 & l2 & -> & Hnot). exists ((k', v') :: l1), l2.
        split; [reflexivity |]. intros [Hk | Hin]; [exact (Hne Hk) | exact (Hnot Hin)].
      * intros ([| [k1 v1] l1] & l2 & H & Hnot).
        -- cbn in H. injection H as Hk _ _. contradiction.
        -- cbn in H. injection H as _ _ ->. exists l1, l2.
           split; [reflexivity |]. intros Hin. apply Hnot. right. exact Hin.
Qed.

(** In the dictionary of the teams array the last entry with the key
    counts. *)
Lemma dict_last (teams : list (Z * string)) (k : Z) (v : string) :
  lookup (teams_dict teams) k = Some v
  <-> exists before after,
        teams = (before ++ (k, v) :: after)%list /\ ~ In k (map fst after).
Proof.
  unfold teams_dict. rewrite lookup_first. split.
  - intros (l1 & l2 & H & Hnot). exists (rev l2), (rev l1). split.
    + rewrite <- (rev_involutive teams), H, rev_app_distr. cbn.
      rewrite <- app_assoc. reflexivity.
    + rewrite map_rev. intros Hin. apply Hnot. apply in_rev. exact Hin.
  - intros (before & after & -> & Hnot). exists (rev after), (rev before). split.
    + rewrite rev_app_distr. cbn. rewrite <- app_assoc. reflexivity.
    + rewrite map_rev. intros Hin. apply Hnot. apply in_rev in Hin. exact Hin.
Qed.

End TeamFacts.

(** X19.  With the teams request answered, the team cell of a player is
    the short name of the last entry of the teams array that carries the
    player's team id, wherever in the array that entry stands, and it is
    NaN exactly when no entry carries the id. *)
Theorem team_lookup_last_entry_wins
    (teams : list (Z * string)) (p : Api.element) (name : string) :
  (SendPricePredictions.team_name (SendPricePredictions.with_team (Returned teams) p)
   = Some name
   <-> exists before after,
         teams = (before ++ (Api.team p, name) :: after)%list
         /\ ~ In (Api.team p) (map fst after))
  /\ (SendPricePredictions.team_name
        (SendPricePredictions.with_team (Returned teams) p) = None
      <-> ~ In (Api.team p) (map fst teams)).
Proof.
  cbn [SendPricePredictions.with_team SendPricePredictions.team_name]. split.
  - apply TeamFacts.dict_last.
  - unfold SendPricePredictions.teams_dict.
    rewrite TeamFacts.lookup_none, map_rev. split; intros H Hin; apply H.
    + apply in_rev in Hin. exact Hin.
    + apply in_rev. exact Hin.
Qed.

(** ** Ties in the trend ranking *)

Module TieFacts.
Import Frame.

Lemma insert_keeps_order {A} (key : A -> Z) (c : Z) (x : A) (l : list A) :
  filter (fun a => key a =? c) (insert (fun x y => key y <=? key x) x l)
  = filter (fun a => key a =? c) (x :: l).
Proof.
  induction l as [| y l IH]; [reflexivity |].
  cbn [insert]. destruct (Z.leb_spec (key y) (key x)) as [Hle | Hgt];
    [reflexivity |].
  cbn [filter] in *. rewrite IH.
  destruct (Z.eqb_spec (key x) c), (Z.eqb_spec (key y) c); try reflexivity; lia.
Qed.

(** A descending [sorted] keeps rows with the same key in their order. *)
Lemma sorted_reverse_stable {A} (key : A -> Z) (c : Z) (l : list A) :
  filter (fun a => key a =? c) (sorted_reverse key l)
  = filter (fun a => key a =? c) l.
Proof.
  unfold sorted_reverse, stable_sort.
  induction l as [| x l IH]; [reflexivity |].
  cbn [fold_right]. rewrite insert_keeps_order. cbn [filter]. rewrite IH.
  reflexivity.
Qed.

End TieFacts.

(** X20.  Ties in the trend ranking keep the table's order: each of the
    two lists is the first top_n rows of a ranking of the whole table in
    which, for every count, the players with that count appear in the same
    order as in the player table. *)
Theorem trend_ranking_is_stable (players : list Api.element) (top_n : nat) :
  exists ranked_in ranked_out,
    SendTransferTrends.get_transfer_trends players top_n
    = (firstn top_n ranked_in, firstn top_n ranked_out)
    /\ Permutation ranked_in players
    /\ Permutation ranked_out players
    /\ (forall c,
          filter (fun p => Api.transfers_in_event p =? c) ranked_in
          = filter (fun p => Api.transfers_in_event p =? c) players)
    /\ (forall c,
          filter (fun p => Api.transfers_out_event p =? c) ranked_out
          = filter (fun p => Api.transfers_out_event p =? c) players).
Proof.
  exists (Frame.sorted_reverse Api.transfers_in_event players),
         (Frame.sorted_reverse Api.transfers_out_event players).
  split; [reflexivity |].
  split; [apply FrameFacts.stable_sort_perm |].
  split; [apply FrameFacts.stable_sort_perm |].
  split; intros c; apply TieFacts.sorted_reverse_stable.
Qed.

(** ** The two formatters *)

Module FormatterFacts.

Lemma lines_agree (lm : list Main.changed_row) (lu : list SendUpdate.merged_row) :
  map Shown.main_line_fields lm = map Shown.update_line_fields lu ->
  map Main.format_line lm = map SendUpdate.format_line lu.
Proof.
  revert lu. induction lm as [| m lm IH]; intros [| u lu] H;
    try discriminate H; [reflexivity |].
  cbn [map] in *. injection H as Hname Hnow Hprev Htail.
  rewrite (IH lu Htail). f_equal.
  unfold Main.format_line, SendUpdate.format_line.
  rewrite Hname, Hnow, Hprev. reflexivity.
Qed.

End FormatterFacts.

(** X21.  On a table that is not empty the formatter of [send_update.py]
    returns the same text as the formatter of [main.py]: for two tables
    with the same names, current prices and previous prices, row by row,
    and the same change type, the two texts are equal.  The empty table is
    the only input on which the two formatters differ. *)
Theorem formatters_agree_on_nonempty_tables
    (lm : list Main.changed_row) (lu : list SendUpdate.merged_row)
    (change_type : string) :
  lm <> [] ->
  map Shown.main_line_fields lm = map Shown.update_line_fields lu ->
  Main.format_price_changes lm change_type
  = SendUpdate.format_price_changes lu change_type.
Proof.
  intros Hne Hfields.
  pose proof (FormatterFacts.lines_agree lm lu Hfields) as Hlines.
  unfold Main.format_price_changes, SendUpdate.format_price_changes.
  destruct lu as [| u lu].
  - destruct lm; [contradiction | discriminate Hfields].
  - rewrite Hlines. reflexivity.
Qed.

Lemma formatters_agree_on_nonempty_tables_witness :
  let p := Sample.player 1 "Palmer" 55 0 0 None in
  let b := Some {| Api.y_id := 1; Api.y_now_cost := 50 |} in
  let lm := [{| Main.row := Main.merge_row p b; Main.arrow := "up" |}] in
  let lu := [SendUpdate.merge_row p b] in
  (lm <> [] /\ map Shown.main_line_fields lm = map Shown.update_line_fields lu)
  /\ Main.format_price_changes lm "Price Rises"
     = SendUpdate.format_price_changes lu "Price Rises".
Proof.
  intros p b lm lu.
  assert (lm <> []) as Hne by discriminate.
  assert (map Shown.main_line_fields lm = map Shown.update_line_fields lu)
    as Hfields by reflexivity.
  split; [split; assumption |].
  exact (formatters_agree_on_nonempty_tables lm lu "Price Rises" Hne Hfields).
Defined.

(** X22.  An ownership that arrives as a text with one decimal is printed
    back as it came: when the cell holds the float read from [k] tenths of
    a percent (non-negative, below [2^48]), the one-decimal text of the
    prediction block is [k / 10], a point, and [k mod 10].  Reading the
    decimal text to a float and formatting the float lose nothing. *)
Theorem ownership_text_round_trip (k : Z) :
  0 <= k < 2 ^ 48 ->
  Float.format_fixed 1
    (SendPricePredictions.to_numeric_fillna (Some (Float.literal (k # 10))))
  = Shown.tenths_text k.
Proof.
  intros [Hnonneg Hsmall].
  change (2 ^ 48) with 281474976710656 in Hsmall.
  destruct (Z.eq_dec k 0) as [-> | Hne]; [vm_compute; reflexivity |].
  cbn [SendPricePredictions.to_numeric_fillna]. unfold Float.literal.
  rewrite PriceFacts.round_of_positive by (cbn; lia).
  cbn [Qnum Qden].
  pose proof (FloatFacts.round_ratio_error k 10 ltac:(lia) ltac:(lia)) as H.
  change (Z.pos 10) with 10.
  destruct (Float.round_ratio k 10) as [n d]. destruct H as (Hn & Hd & He).
  cbn [fst snd].
  destruct (PriceFacts.close_of_error k 10 10 n d ltac:(lia) ltac:(lia) ltac:(lia)
              ltac:(change (2 ^ 52) with 4503599627370496; lia) Hn Hd He)
    as [Ht Hclose].
  unfold Float.format_fixed. cbn [Qnum Qden].
  rewrite Z2Pos.id by assumption. rewrite Z.abs_eq by assumption.
  change (10 ^ Z.of_nat 1) with 10.
  replace (round_half_even (n * 10) d) with k by lia.
  destruct (Z.ltb_spec n 0); [lia |].
  rewrite FormatFacts.zero_pad_digit by (apply Z.mod_pos_bound; lia).
  reflexivity.
Qed.

Lemma ownership_text_round_trip_witness :
  0 <= 123 < 2 ^ 48
  /\ Float.format_fixed 1
       (SendPricePredictions.to_numeric_fillna (Some (Float.literal (123 # 10))))
     = "12.3".
Proof.
  assert (0 <= 123 < 2 ^ 48) as Hk by (split; [lia | reflexivity]).
  split; [exact Hk |].
  rewrite (ownership_text_round_trip 123 Hk). reflexivity.
Defined.

(** ** One baseline row per id *)

Module PlayerFacts.
Import FrameFacts.

Lemma distinct_ids_one_row (rows : list Api.yesterday_row)
    (b b' : Api.yesterday_row) :
  NoDup (map Api.y_id rows) -> In b rows -> In b' rows ->
  Api.y_id b = Api.y_id b' -> b = b'.
Proof.
  induction rows as [| r rows IH]; intros Hnd Hb Hb' Hk; [destruct Hb |].
  cbn in Hnd. apply NoDup_cons_iff in Hnd. destruct Hnd as [Hnot Hnd].
  destruct Hb as [-> | Hb], Hb' as [-> | Hb'].
  - reflexivity.
  - exfalso. apply Hnot. rewrite Hk. apply in_map. exact Hb'.
  - exfalso. apply Hnot. rewrite <- Hk. apply in_map. exact Hb.
  - exact (IH Hnd Hb Hb' Hk).
Qed.

(** With distinct baseline ids every merged row of a player records the
    change against the player's one baseline row. *)
Lemma main_change_of_player players y (p : Api.element) (b : Api.yesterday_row)
    (yb : option Api.yesterday_row) (d : Z) :
  NoDup (map Api.y_id (Api.y_rows y)) ->
  In b (Api.y_rows y) -> Api.y_id b = Api.id p ->
  In (Main.merge_row p yb) (Main.merged_df players y) ->
  Main.daily_change (Main.merge_row p yb) = Some d ->
  d = Api.now_cost p - Api.y_now_cost b.
Proof.
  intros Hnd Hb Hk Hin Hd. unfold Main.merged_df in Hin.
  apply merge_left_In in Hin.
  destruct Hin as (p' & _ & [(b' & Hb' & Hk' & Heq) | (_ & Heq)]).
  - assert (Api.id p = Api.id p') as Hid by exact (f_equal Main.id Heq).
    assert (Api.now_cost p = Api.now_cost p') as Hcost
      by exact (f_equal Main.now_cost Heq).
    assert (b = b') as ->
      by (apply (distinct_ids_one_row (Api.y_rows y)); congruence).
    rewrite Heq in Hd. cbn in Hd. injection Hd as <-. lia.
  - rewrite Heq in Hd. discriminate Hd.
Qed.

Lemma update_change_of_player players y (p : Api.element) (b : Api.yesterday_row)
    (yb : option Api.yesterday_row) (d : Z) :
  NoDup (map Api.y_id (Api.y_rows y)) ->
  In b (Api.y_rows y) -> Api.y_id b = Api.id p ->
  In (SendUpdate.merge_row p yb) (SendUpdate.merged_df players y) ->
  SendUpdate.daily_change (SendUpdate.merge_row p yb) = Some d ->
  d = Api.now_cost p - Api.y_now_cost b.
Proof.
  intros Hnd Hb Hk Hin Hd. unfold SendUpdate.merged_df in Hin.
  apply merge_left_In in Hin.
  destruct Hin as (p' & _ & [(b' & Hb' & Hk' & Heq) | (_ & Heq)]).
  - assert (Api.id p = Api.id p') as Hid by exact (f_equal SendUpdate.id Heq).
    assert (Api.now_cost p = Api.now_cost p') as Hcost
      by exact (f_equal SendUpdate.now_cost Heq).
    assert (b = b') as ->
      by (apply (distinct_ids_one_row (Api.y_rows y)); congruence).
    rewrite Heq in Hd. cbn in Hd. injection Hd as <-. lia.
  - rewrite Heq in Hd. discriminate Hd.
Qed.

End PlayerFacts.

(** C4 as stated fails.  The join keeps every row of yesterday's table
    that has the player's id.  With one player at 5.5 and a baseline that
    records the id twice, at 5.0 and at 6.0, the player has a baseline
    match and is in the risen list and in the fallen list, in [main.py]
    and in [send_update.py]. *)
Lemma duplicate_baseline_lists_player_twice :
  let players := [Listed.palmer] in
  let y := Listed.twice_yesterday in
  (exists b, In b (Api.y_rows y) /\ Api.y_id b = Api.id Listed.palmer)
  /\ Listed.main_player_in Listed.palmer (snd (Main.price_tables players y))
  /\ Listed.main_player_in Listed.palmer (fst (Main.price_tables players y))
  /\ Listed.update_player_in Listed.palmer (fst (SendUpdate.price_tables players y))
  /\ Listed.update_player_in Listed.palmer (snd (SendUpdate.price_tables players y))
  /\ ~ (Listed.main_player_in Listed.palmer (snd (Main.price_tables players y))
        -> ~ Listed.main_player_in Listed.palmer (fst (Main.price_tables players y))).
Proof.
  intros players y.
  assert (Listed.main_player_in Listed.palmer (snd (Main.price_tables players y)))
    as Hup.
  { exists (Some {| Api.y_id := 1; Api.y_now_cost := 50 |}).
    vm_compute. left. reflexivity. }
  assert (Listed.main_player_in Listed.palmer (fst (Main.price_tables players y)))
    as Hdown.
  { exists (Some {| Api.y_id := 1; Api.y_now_cost := 60 |}).
    vm_compute. left. reflexivity. }
  split; [exists {| Api.y_id := 1; Api.y_now_cost := 50 |};
          split; [left; reflexivity | reflexivity] |].
  split; [exact Hup |]. split; [exact Hdown |].
  split; [exists (Some {| Api.y_id := 1; Api.y_now_cost := 50 |});
          vm_compute; left; reflexivity |].
  split; [exists (Some {| Api.y_id := 1; Api.y_now_cost := 60 |});
          vm_compute; left; reflexivity |].
  intros H. exact (H Hup Hdown).
Qed.

(** C4, amended.  For every player and every row of yesterday's table with
    the player's id, the delta computed on their merged row equals current
    price minus baseline price, and that merged row is in exactly one of
    {risen, fallen, neither}, consistent with the sign of delta; a delta of
    0 puts it in neither list.  When no id occurs twice in yesterday's
    table, the same holds of the player: the player is in the risen list
    exactly when delta is positive, in the fallen list exactly when it is
    negative, never in both, and in neither when delta is 0.  This holds in
    [main.py] and in [send_update.py]. *)
Theorem delta_classifies_player
    (players : list Api.element) (y : Api.yesterday_frame)
    (p : Api.element) (b : Api.yesterday_row) :
  In p players -> In b (Api.y_rows y) -> Api.y_id b = Api.id p ->
  let delta := Api.now_cost p - Api.y_now_cost b in
  (let r := Main.merge_row p (Some b) in
   let falls := map Main.row (fst (Main.price_tables players y)) in
   let rises := map Main.row (snd (Main.price_tables players y)) in
   Main.daily_change r = Some delta
   /\ (In r rises <-> 0 < delta)
   /\ (In r falls <-> delta < 0)
   /\ (delta = 0 -> ~ In r rises /\ ~ In r falls)
   /\ ~ (In r rises /\ In r falls))
  /\
  (let r := SendUpdate.merge_row p (Some b) in
   let rises := fst (SendUpdate.price_tables players y) in
   let falls := snd (SendUpdate.price_tables players y) in
   SendUpdate.daily_change r = Some delta
   /\ (In r rises <-> 0 < delta)
   /\ (In r falls <-> delta < 0)
   /\ (delta = 0 -> ~ In r rises /\ ~ In r falls)
   /\ ~ (In r rises /\ In r falls))
  /\
  (NoDup (map Api.y_id (Api.y_rows y)) ->
   let main_rises := snd (Main.price_tables players y) in
   let main_falls := fst (Main.price_tables players y) in
   let update_rises := fst (SendUpdate.price_tables players y) in
   let update_falls := snd (SendUpdate.price_tables players y) in
   (Listed.main_player_in p main_rises <-> 0 < delta)
   /\ (Listed.main_player_in p main_falls <-> delta < 0)
   /\ ~ (Listed.main_player_in p main_rises /\ Listed.main_player_in p main_falls)
   /\ (delta = 0 -> ~ Listed.main_player_in p main_rises
                    /\ ~ Listed.main_player_in p main_falls)
   /\ (Listed.update_player_in p update_rises <-> 0 < delta)
   /\ (Listed.update_player_in p update_falls <-> delta < 0)
   /\ ~ (Listed.update_player_in p update_rises
         /\ Listed.update_player_in p update_falls)
   /\ (delta = 0 -> ~ Listed.update_player_in p update_rises
                    /\ ~ Listed.update_player_in p update_falls)).
Proof.
  intros Hp Hb Hk delta.
  destruct (delta_classifies_pair players y p b Hp Hb Hk) as [Hmain Hupdate].
  split; [exact Hmain |]. split; [exact Hupdate |].
  cbv zeta in Hmain, Hupdate.
  destruct Hmain as (_ & Hmr & Hmf & _).
  destruct Hupdate as (_ & Hur & Huf & _).
  intros Hnd main_rises main_falls update_rises update_falls.
  assert (Listed.main_player_in p main_rises <-> 0 < delta) as H1.
  { split.
    - intros (yb & Hin). apply MainFacts.main_in_rises in Hin.
      destruct Hin as (Hm & d & Hd & Hpos).
      rewrite (PlayerFacts.main_change_of_player players y p b yb d Hnd Hb Hk Hm Hd)
        in Hpos.
      exact Hpos.
    - intros Hpos. exists (Some b). apply Hmr. exact Hpos. }
  assert (Listed.main_player_in p main_falls <-> delta < 0) as H2.
  { split.
    - intros (yb & Hin). apply MainFacts.main_in_falls in Hin.
      destruct Hin as (Hm & d & Hd & Hneg).
      rewrite (PlayerFacts.main_change_of_player players y p b yb d Hnd Hb Hk Hm Hd)
        in Hneg.
      exact Hneg.
    - intros Hneg. exists (Some b). apply Hmf. exact Hneg. }
  assert (Listed.update_player_in p update_rises <-> 0 < delta) as H3.
  { split.
    - intros (yb & Hin). apply SendUpdateFacts.update_in_rises in Hin.
      destruct Hin as (Hm & d & Hd & Hpos).
      rewrite (PlayerFacts.update_change_of_player players y p b yb d Hnd Hb Hk Hm Hd)
        in Hpos.
      exact Hpos.
    - intros Hpos. exists (Some b). apply Hur. exact Hpos. }
  assert (Listed.update_player_in p update_falls <-> delta < 0) as H4.
  { split.
    - intros (yb & Hin). apply SendUpdateFacts.update_in_falls in Hin.
      destruct Hin as (Hm & d & Hd & Hneg).
      rewrite (PlayerFacts.update_change_of_player players y p b yb d Hnd Hb Hk Hm Hd)
        in Hneg.
      exact Hneg.
    - intros Hneg. exists (Some b). apply Huf. exact Hneg. }
  split; [exact H1 |]. split; [exact H2 |].
  split; [rewrite H1, H2; lia |].
  split; [rewrite H1, H2; lia |].
  split; [exact H3 |]. split; [exact H4 |].
  split; [rewrite H3, H4; lia |].
  rewrite H3, H4. lia.
Qed.

Lemma delta_classifies_player_witness :
  let players := Sample.one_riser in
  let y := Sample.one_riser_yesterday in
  let p := Sample.player 1 "Palmer" 55 0 0 None in
  let b := {| Api.y_id := 1; Api.y_now_cost := 50 |} in
  (In p players /\ In b (Api.y_rows y) /\ Api.y_id b = Api.id p
   /\ NoDup (map Api.y_id (Api.y_rows y)))
  /\ Listed.main_player_in p (snd (Main.price_tables players y))
  /\ ~ Listed.main_player_in p (fst (Main.price_tables players y))
  /\ Listed.update_player_in p (fst (SendUpdate.price_tables players y))
  /\ ~ Listed.update_player_in p (snd (SendUpdate.price_tables players y)).
Proof.
  intros players y p b.
  assert (In p players) as Hp by (left; reflexivity).
  assert (In b (Api.y_rows y)) as Hb by (left; reflexivity).
  assert (Api.y_id b = Api.id p) as Hk by reflexivity.
  assert (NoDup (map Api.y_id (Api.y_rows y))) as Hnd
    by (cbn; constructor; [intros [] | constructor]).
  destruct (delta_classifies_player players y p b Hp Hb Hk) as (_ & _ & Hplayer).
  destruct (Hplayer Hnd) as (H1 & H2 & _ & _ & H3 & H4 & _).
  split; [auto |].
  split; [apply H1; reflexivity |].
  split; [rewrite H2; cbn; lia |].
  split; [apply H3; reflexivity |].
  rewrite H4. cbn. lia.
Defined.
